(** * Task lifecycle of the kanban dashboard backend

    A shallow embedding of the request handlers of the backend:
    - [Auth]: the register route (routes/auth.ts and the copy in server.ts);
    - [Routes]: the handlers of routes/tasks.ts, mounted at /api/tasks;
    - [Controller]: the handlers of controllers/taskController.ts.

    A handler is a function from the world (the two collections it reads and
    writes, and the events pushed over the socket server) to a response and
    a new world.  Early [return res.status(..)] and thrown errors are kept
    by a small monad; the [catch] block of a handler turns a thrown error
    into its 500 answer.

    Conventions of the embedding.
    - An ObjectId is the string [toString()] gives; ids are compared as the
      code compares them, by string equality, and a request names a task in
      the spelling the store has for its id.  [toString()] of a reference
      that was not populated is the id it refers to; of a populated one it
      is the text of the document, and it throws on the [null] that
      [populate] leaves for a reference that does not resolve.
    - [populate] of an array of references keeps, in order, the references
      that resolve to a stored user; it changes what the response carries,
      not what is stored.
    - Request bodies are typed as the handlers destructure them; a field
      that is absent from the body is [None]. *)

From Stdlib Require Import String Ascii List Bool ZArith Arith Lia.
From Stdlib Require Import Permutation Sorted.
Import ListNotations.
Open Scope string_scope.
Open Scope list_scope.

Set Implicit Arguments.

(** ** Data model *)

Definition ObjectId := string.
Definition Date := Z.

Definition roleEnum : list string := ["admin"; "user"].
Definition statusEnum : list string := ["todo"; "in-progress"; "review"; "done"].
Definition priorityEnum : list string := ["low"; "medium"; "high"].

Definition mem (s : string) (l : list string) : bool :=
  existsb (String.eqb s) l.

(** models/User.ts: [IUser] and [userSchema]. *)
Module IUser.
Record t := mk {
  _id : ObjectId;
  name : string;
  email : string;
  password : string;
  role : string;
  isActive : bool
}.
End IUser.

(** models/Task.ts: [ITask] and [taskSchema]. *)
Module ITask.
Record t := mk {
  _id : ObjectId;
  title : string;
  description : string;
  status : string;
  priority : string;
  assignedTo : list ObjectId;
  assignedBy : ObjectId;
  dueDate : option Date;
  createdAt : Date;
  updatedAt : Date
}.
End ITask.

(** What [populate(path, 'name email')] puts in place of a reference. *)
Module Ref.
Record t := mk { _id : ObjectId; name : string; email : string }.
End Ref.

(** A task document after the two [populate] calls. *)
Module Populated.
Record t := mk {
  doc : ITask.t;
  assignedTo : list Ref.t;
  assignedBy : option Ref.t
}.
End Populated.

(** A signed token: [jwt.sign({ id, role }, secret, { expiresIn })]. *)
Module Token.
Record t := mk {
  id : ObjectId;
  role : string;
  secret : string;
  expiresIn : string
}.
End Token.

Definition jwt_sign (id : ObjectId) (role secret expiresIn : string) : Token.t :=
  Token.mk id role secret expiresIn.

Definition JWT_SECRET : string := "fallback_secret_key_change_this_in_production".

(** ** Responses and socket events *)

Module UserView.
Record t := mk { id : ObjectId; name : string; email : string; role : string }.
End UserView.

Inductive Json :=
| JMessage (success : option bool) (message : string)
| JTask (success : option bool) (task : Populated.t) (message : option string)
| JTasks (success : option bool) (tasks : list Populated.t) (count : option nat)
| JAuth (token : Token.t) (user : UserView.t).

Record Response := res { code : nat; json : Json }.

Inductive Payload :=
| PTask (task : Populated.t)
| PDeleted (taskId : string) (message : option string).

(** [io.to(room).emit(event, payload)]. *)
Record Emit := mkEmit { room : string; event : string; payload : Payload }.

(** ** The world of a handler *)

Record World := mkWorld {
  users : list IUser.t;
  tasks : list ITask.t;
  emitted : list Emit
}.

Definition set_users (us : list IUser.t) (w : World) : World :=
  mkWorld us (tasks w) (emitted w).
Definition set_tasks (ts : list ITask.t) (w : World) : World :=
  mkWorld (users w) ts (emitted w).
Definition push_emit (e : Emit) (w : World) : World :=
  mkWorld (users w) (tasks w) (emitted w ++ [e]).

(** ** Handlers: state, early return, thrown errors *)

Inductive Outcome (A : Type) :=
| Next (a : A)
| Reply (r : Response)
| Throw (err : string).
Arguments Next {A} a.
Arguments Reply {A} r.
Arguments Throw {A} err.

Definition Handler (A : Type) := World -> Outcome A * World.

Definition ret {A} (a : A) : Handler A := fun w => (Next a, w).

Definition bind {A B} (m : Handler A) (k : A -> Handler B) : Handler B :=
  fun w =>
    match m w with
    | (Next a, w') => k a w'
    | (Reply r, w') => (Reply r, w')
    | (Throw e, w') => (Throw e, w')
    end.

(** [return res.status(c).json(j)]. *)
Definition reply {A} (c : nat) (j : Json) : Handler A :=
  fun w => (Reply (res c j), w).

Definition throw {A} (e : string) : Handler A := fun w => (Throw e, w).

Definition gets {A} (f : World -> A) : Handler A := fun w => (Next (f w), w).
Definition modify (f : World -> World) : Handler unit := fun w => (Next tt, f w).

Declare Scope handler_scope.
Delimit Scope handler_scope with handler.
Notation "x <- m ;; k" := (bind m (fun x => k))
  (at level 61, m at next level, right associativity) : handler_scope.
Notation "m ;; k" := (bind m (fun _ => k))
  (at level 61, right associativity) : handler_scope.
Open Scope handler_scope.

(** [if (c) return res.status(..).json(..)]. *)
Definition when_reply (c : bool) (code : nat) (j : Json) : Handler unit :=
  if c then reply code j else ret tt.

(** [xs.forEach(f)]. *)
Fixpoint forEach {A} (xs : list A) (f : A -> Handler unit) : Handler unit :=
  match xs with
  | [] => ret tt
  | x :: xs' => f x ;; forEach xs' f
  end.

Definition emit (room event : string) (p : Payload) : Handler unit :=
  modify (push_emit (mkEmit room event p)).

(** [try { h } catch (error) { return res.status(500).json(onError) }]. *)
Definition try_catch (h : Handler Response) (onError : Json) (w : World)
  : Response * World :=
  match h w with
  | (Next r, w') => (r, w')
  | (Reply r, w') => (r, w')
  | (Throw _, w') => (res 500 onError, w')
  end.

(** ** The collections *)

Definition findUserById (id : ObjectId) (us : list IUser.t) : option IUser.t :=
  find (fun u => String.eqb (IUser._id u) id) us.

Definition findUserByEmail (e : string) (us : list IUser.t) : option IUser.t :=
  find (fun u => String.eqb (IUser.email u) e) us.

(** [User.find({ _id: { $in: ids } })]. *)
Definition findUsersIn (ids : list ObjectId) (us : list IUser.t) : list IUser.t :=
  filter (fun u => mem (IUser._id u) ids) us.

(** [User.find({ _id: { $in: ids }, isActive: true })]. *)
Definition findActiveUsersIn (ids : list ObjectId) (us : list IUser.t)
  : list IUser.t :=
  filter (fun u => mem (IUser._id u) ids && IUser.isActive u) us.

Definition findTaskById (id : ObjectId) (ts : list ITask.t) : option ITask.t :=
  find (fun t => String.eqb (ITask._id t) id) ts.

(** [Task.findByIdAndDelete(id)]: the first document with that id goes. *)
Fixpoint deleteTaskById (id : ObjectId) (ts : list ITask.t) : list ITask.t :=
  match ts with
  | [] => []
  | t :: ts' =>
      if String.eqb (ITask._id t) id then ts' else t :: deleteTaskById id ts'
  end.

(** Writing back a document that was loaded from the collection. *)
Fixpoint replaceTask (d : ITask.t) (ts : list ITask.t) : list ITask.t :=
  match ts with
  | [] => []
  | t :: ts' =>
      if String.eqb (ITask._id t) (ITask._id d) then d :: ts'
      else t :: replaceTask d ts'
  end.

(** The validators of [taskSchema]: [required] on a string refuses the empty
    string, [enum] refuses a value outside the list. *)
Definition validTask (d : ITask.t) : bool :=
  negb (String.eqb (ITask.title d) "")
  && negb (String.eqb (ITask.description d) "")
  && mem (ITask.status d) statusEnum
  && mem (ITask.priority d) priorityEnum.

(** The validators of [userSchema]. *)
Definition validUser (u : IUser.t) : bool :=
  negb (String.eqb (IUser.name u) "")
  && negb (String.eqb (IUser.email u) "")
  && negb (String.eqb (IUser.password u) "")
  && mem (IUser.role u) roleEnum.

(** [mongoose.Types.ObjectId.isValid] on a string, a function of the driver:
    24 hexadecimal digits, or any string of 12 characters. *)
Definition isHex (c : ascii) : bool :=
  let n := nat_of_ascii c in
  ((48 <=? n)%nat && (n <=? 57)%nat) || ((65 <=? n)%nat && (n <=? 70)%nat)
  || ((97 <=? n)%nat && (n <=? 102)%nat).

Definition ObjectId_isValid (s : string) : bool :=
  ((String.length s =? 24)%nat && forallb isHex (list_ascii_of_string s))
  || (String.length s =? 12)%nat.

(** [populate] of an array of references and of a single reference. *)
Definition refOf (u : IUser.t) : Ref.t :=
  Ref.mk (IUser._id u) (IUser.name u) (IUser.email u).

Fixpoint populateMany (us : list IUser.t) (ids : list ObjectId) : list Ref.t :=
  match ids with
  | [] => []
  | i :: ids' =>
      match findUserById i us with
      | Some u => refOf u :: populateMany us ids'
      | None => populateMany us ids'
      end
  end.

Definition populateOne (us : list IUser.t) (id : ObjectId) : option Ref.t :=
  option_map refOf (findUserById id us).

Definition populate (us : list IUser.t) (d : ITask.t) : Populated.t :=
  Populated.mk d (populateMany us (ITask.assignedTo d))
               (populateOne us (ITask.assignedBy d)).

(** [doc.toString()] of a populated reference: the text of the document,
    not its id.  The layout of the text is the driver's. *)
Definition documentString (r : Ref.t) : string :=
  ("{ _id: new ObjectId('" ++ Ref._id r ++ "'), name: '" ++ Ref.name r
   ++ "', email: '" ++ Ref.email r ++ "' }")%string.

(** [task.assignedBy.toString()] after [populate('assignedBy')]. *)
Definition populatedToString (o : option Ref.t) : Handler string :=
  match o with
  | Some r => ret (documentString r)
  | None => throw "TypeError"
  end.

(** [.sort({ createdAt: -1 })]. *)
Fixpoint insertByCreatedAt (t : ITask.t) (ts : list ITask.t) : list ITask.t :=
  match ts with
  | [] => [t]
  | t' :: ts' =>
      if (ITask.createdAt t' <=? ITask.createdAt t)%Z then t :: t' :: ts'
      else t' :: insertByCreatedAt t ts'
  end.

Definition sortByCreatedAtDesc (ts : list ITask.t) : list ITask.t :=
  fold_right insertByCreatedAt [] ts.

(** [user.save()] of a new user: the schema validators run, the unique
    index on [email] refuses a second document with the same address. *)
Definition saveNewUser (u : IUser.t) : Handler unit :=
  if negb (validUser u) then throw "ValidationError"
  else
    dup <- gets (fun w => findUserByEmail (IUser.email u) (users w)) ;;
    match dup with
    | Some _ => throw "E11000 duplicate key"
    | None => modify (fun w => set_users (users w ++ [u]) w)
    end.

(** [task.save()] of a new task and of a loaded one; the validators are run
    on the document as a whole. *)
Definition saveNewTask (d : ITask.t) : Handler unit :=
  if negb (validTask d) then throw "ValidationError"
  else modify (fun w => set_tasks (tasks w ++ [d]) w).

Definition saveTask (d : ITask.t) : Handler unit :=
  if negb (validTask d) then throw "ValidationError"
  else modify (fun w => set_tasks (replaceTask d (tasks w)) w).

(** [Task.findById(id)]: an id that is no ObjectId cannot be cast and the
    query throws. *)
Definition Task_findById (id : string) : Handler (option ITask.t) :=
  if ObjectId_isValid id then gets (fun w => findTaskById id (tasks w))
  else throw "CastError".

Definition orElse {A} (o : option A) (d : A) : A :=
  match o with Some a => a | None => d end.

(** JavaScript truthiness of an optional string: [undefined] and the empty
    string are falsy. *)
Definition truthy (o : option string) : bool :=
  match o with
  | Some s => negb (String.eqb s "")
  | None => false
  end.

Definition isSome {A} (o : option A) : bool :=
  match o with Some _ => true | None => false end.

(** ** The register route *)

Module Auth.

(** [const { name, email, password, role = 'user' } = req.body]. *)
Record RegisterBody := mkBody {
  name : string;
  email : string;
  password : string;
  role : option string
}.

Definition register (expiresIn : string) (newId : ObjectId)
           (body : RegisterBody) : World -> Response * World :=
  try_catch
    (let role := orElse (role body) "user" in
     existingUser <- gets (fun w => findUserByEmail (email body) (users w)) ;;
     when_reply (isSome existingUser) 400 (JMessage None "User already exists") ;;
     let user := IUser.mk newId (name body) (email body) (password body)
                          role true in
     saveNewUser user ;;
     let token := jwt_sign (IUser._id user) (IUser.role user)
                           JWT_SECRET expiresIn in
     reply 201 (JAuth token
                      (UserView.mk (IUser._id user) (IUser.name user)
                                   (IUser.email user) (IUser.role user))))
    (JMessage None "Server error").

(** [app.post('/api/auth/register')] in server.ts. *)
Definition server_register := register "7d".

(** [router.post('/register')] in routes/auth.ts. *)
Definition router_register := register "5d".

End Auth.

(** ** Middleware *)

(** middleware/auth.ts: the bearer token is verified and the user it names
    is loaded into [req.user]. *)
Definition protect (authorization : option Token.t)
           (next : IUser.t -> Handler Response) : Handler Response :=
  match authorization with
  | None => reply 401 (JMessage None "Not authorized, no token")
  | Some token =>
      if String.eqb (Token.secret token) JWT_SECRET then
        user <- gets (fun w => findUserById (Token.id token) (users w)) ;;
        match user with
        | None => reply 401 (JMessage None "User not found")
        | Some u => next u
        end
      else reply 401 (JMessage None "Token failed")
  end.

(** Modelled from the spec: middleware/authorize.ts is not among the
    sources.  [authorize roles] lets a request through when the role of
    [req.user] is one of [roles] and answers 403 ("authenticated but not
    authorized") otherwise; the text of its message is not known. *)
Definition authorize (roles : list string) (user : IUser.t)
           (next : Handler Response) : Handler Response :=
  if mem (IUser.role user) roles then next
  else reply 403 (JMessage None "Forbidden").

(** ** Request bodies of the task routes *)

(** [const { title, description, status, priority, assignedTo, dueDate } =
    req.body]; [others] counts the further keys of the body, which
    [Object.keys(req.body)] sees. *)
Module TaskBody.
Record t := mk {
  title : option string;
  description : option string;
  status : option string;
  priority : option string;
  assignedTo : option (list ObjectId);
  dueDate : option Date;
  others : nat
}.

Definition count {A} (o : option A) : nat :=
  match o with Some _ => 1 | None => 0 end.

(** [Object.keys(req.body).length]. *)
Definition keys (b : t) : nat :=
  count (title b) + count (description b) + count (status b)
  + count (priority b) + count (assignedTo b) + count (dueDate b)
  + others b.
End TaskBody.

Definition isAdmin (u : IUser.t) : bool := String.eqb (IUser.role u) "admin".

(** The assignments [if (x !== undefined) task.x = x] on a loaded document. *)
Definition assignFields (f : string -> string) (b : TaskBody.t) (d : ITask.t)
  : ITask.t :=
  ITask.mk (ITask._id d)
           (match TaskBody.title b with Some x => f x | None => ITask.title d end)
           (match TaskBody.description b with
            | Some x => f x | None => ITask.description d end)
           (orElse (TaskBody.status b) (ITask.status d))
           (orElse (TaskBody.priority b) (ITask.priority d))
           (ITask.assignedTo d)
           (ITask.assignedBy d)
           (match TaskBody.dueDate b with
            | Some x => Some x | None => ITask.dueDate d end)
           (ITask.createdAt d)
           (ITask.updatedAt d).

Definition set_assignedTo (ids : list ObjectId) (d : ITask.t) : ITask.t :=
  ITask.mk (ITask._id d) (ITask.title d) (ITask.description d)
           (ITask.status d) (ITask.priority d) ids (ITask.assignedBy d)
           (ITask.dueDate d) (ITask.createdAt d) (ITask.updatedAt d).

Definition set_updatedAt (now : Date) (d : ITask.t) : ITask.t :=
  ITask.mk (ITask._id d) (ITask.title d) (ITask.description d)
           (ITask.status d) (ITask.priority d) (ITask.assignedTo d)
           (ITask.assignedBy d) (ITask.dueDate d) (ITask.createdAt d) now.

Fixpoint sameIds (a b : list ObjectId) : bool :=
  match a, b with
  | [], [] => true
  | x :: a', y :: b' => String.eqb x y && sameIds a' b'
  | _, _ => false
  end.

Definition sameDate (a b : option Date) : bool :=
  match a, b with
  | Some x, Some y => (x =? y)%Z
  | None, None => true
  | _, _ => false
  end.

(** Whether the assignments gave some path of the loaded document a value
    other than the one it had. *)
Definition isModified (loaded task : ITask.t) : bool :=
  negb (String.eqb (ITask.title loaded) (ITask.title task)
        && String.eqb (ITask.description loaded) (ITask.description task)
        && String.eqb (ITask.status loaded) (ITask.status task)
        && String.eqb (ITask.priority loaded) (ITask.priority task)
        && sameIds (ITask.assignedTo loaded) (ITask.assignedTo task)
        && sameDate (ITask.dueDate loaded) (ITask.dueDate task)).

(** [{ timestamps: true }] on the [save] of a loaded document: [updatedAt]
    is set when a path was modified, and left otherwise. *)
Definition timestamps (now : Date) (loaded task : ITask.t) : ITask.t :=
  if isModified loaded task then set_updatedAt now task else task.

(** A handler with its own [try]/[catch], used as the last step of a route. *)
Definition lift (h : World -> Response * World) : Handler Response :=
  fun w => let (r, w') := h w in (Reply r, w').

(** The application: an error that reaches express is answered by the error
    middleware of server.ts. *)
Definition express (h : Handler Response) : World -> Response * World :=
  try_catch h (JMessage None "Something went wrong!").

Definition serverError : Json := JMessage None "Server error".

(** ** routes/tasks.ts *)

Module Routes.

(** [router.get('/')]. *)
Definition getTasks (user : option IUser.t) : World -> Response * World :=
  try_catch
    (match user with
     | None => reply 401 (JMessage None "User not authenticated")
     | Some user =>
         us <- gets users ;;
         tasks <-
           (if isAdmin user then
              gets (fun w => sortByCreatedAtDesc (tasks w))
            else
              gets (fun w =>
                      sortByCreatedAtDesc
                        (filter (fun t => mem (IUser._id user) (ITask.assignedTo t))
                                (tasks w)))) ;;
         reply 200 (JTasks None (map (populate us) tasks) None)
     end)
    serverError.

(** [router.get('/:id')]. *)
Definition getTask (user : option IUser.t) (taskId : string)
  : World -> Response * World :=
  try_catch
    (when_reply (negb (ObjectId_isValid taskId)) 400
                (JMessage None "Invalid task ID format") ;;
     found <- Task_findById taskId ;;
     us <- gets users ;;
     match option_map (populate us) found with
     | None => reply 404 (JMessage None "Task not found")
     | Some task =>
         match user with
         | None => reply 401 (JMessage None "User not authenticated")
         | Some user =>
             if isAdmin user then reply 200 (JTask None task None)
             else
               let assignedToIds := map Ref._id (Populated.assignedTo task) in
               if mem (IUser._id user) assignedToIds then
                 reply 200 (JTask None task None)
               else
                 assignedBy <- populatedToString (Populated.assignedBy task) ;;
                 if String.eqb assignedBy (IUser._id user) then
                   reply 200 (JTask None task None)
                 else reply 403 (JMessage None "Access denied")
         end
     end)
    serverError.

(** [new Task({ title, description, priority, status: status || 'todo',
    assignedTo, assignedBy: user._id, dueDate })] with the defaults of the
    schema.  An absent title or description fails [required] as the empty
    string does. *)
Definition newTask (newId : ObjectId) (now : Date) (user : IUser.t)
           (body : TaskBody.t) : ITask.t :=
  ITask.mk newId
           (orElse (TaskBody.title body) "")
           (orElse (TaskBody.description body) "")
           (if truthy (TaskBody.status body)
            then orElse (TaskBody.status body) "todo" else "todo")
           (orElse (TaskBody.priority body) "medium")
           (orElse (TaskBody.assignedTo body) [])
           (IUser._id user)
           (TaskBody.dueDate body)
           now now.

(** [router.post('/')], behind [authorize('admin')]. *)
Definition createTask (newId : ObjectId) (now : Date) (user : option IUser.t)
           (body : TaskBody.t) : World -> Response * World :=
  try_catch
    (match user with
     | None => reply 401 (JMessage None "User not authenticated")
     | Some user =>
         let assignedTo := orElse (TaskBody.assignedTo body) [] in
         when_reply (Nat.eqb (length assignedTo) 0) 400
           (JMessage None "AssignedTo is required and must be an array of user IDs") ;;
         validUsers <- gets (fun w => findUsersIn assignedTo (users w)) ;;
         when_reply (negb (Nat.eqb (length validUsers) (length assignedTo))) 400
           (JMessage None "One or more assigned users do not exist") ;;
         let task := newTask newId now user body in
         saveNewTask task ;;
         us <- gets users ;;
         let task := populate us task in
         forEach (Populated.assignedTo task)
                 (fun userId => emit (Ref._id userId) "taskAssigned" (PTask task)) ;;
         emit (IUser._id user) "taskCreated" (PTask task) ;;
         reply 201 (JTask None task None)
     end)
    serverError.

(** The permission test of [router.put('/:id')]: "Only admin or task
    creator can update (except for status changes by assigned users)". *)
Definition canWrite (user : IUser.t) (task : ITask.t) (body : TaskBody.t)
  : bool :=
  if negb (isAdmin user)
     && negb (String.eqb (ITask.assignedBy task) (IUser._id user))
  then
    if truthy (TaskBody.status body) && Nat.eqb (TaskBody.keys body) 1 then
      let assignedToIds := ITask.assignedTo task in
      mem (IUser._id user) assignedToIds
    else false
  else true.

(** [router.put('/:id')]. *)
Definition updateTask (now : Date) (user : option IUser.t) (id : string)
           (body : TaskBody.t) : World -> Response * World :=
  try_catch
    (when_reply (String.eqb id "" || String.eqb id "undefined"
                 || String.eqb id "null") 400
                (JMessage None "Task ID is required and must be valid") ;;
     when_reply (negb (ObjectId_isValid id)) 400
                (JMessage None "Invalid task ID format") ;;
     match user with
     | None => reply 401 (JMessage None "User not authenticated")
     | Some user =>
         found <- Task_findById id ;;
         match found with
         | None => reply 404 (JMessage None "Task not found")
         | Some loaded =>
             when_reply (negb (canWrite user loaded body)) 403
                        (JMessage None "Access denied") ;;
             let originalAssignedTo := ITask.assignedTo loaded in
             let task := assignFields (fun x => x) body loaded in
             task <-
               match TaskBody.assignedTo body with
               | Some assignedTo =>
                   validUsers <- gets (fun w => findUsersIn assignedTo (users w)) ;;
                   when_reply
                     (negb (Nat.eqb (length validUsers) (length assignedTo))) 400
                     (JMessage None "One or more assigned users do not exist") ;;
                   ret (set_assignedTo assignedTo task)
               | None => ret task
               end ;;
             let task := timestamps now loaded task in
             saveTask task ;;
             us <- gets users ;;
             let task := populate us task in
             forEach originalAssignedTo
                     (fun userId => emit userId "taskUpdated" (PTask task)) ;;
             forEach (Populated.assignedTo task)
                     (fun userId =>
                        if negb (existsb (fun id => String.eqb id (Ref._id userId))
                                         originalAssignedTo)
                        then emit (Ref._id userId) "taskAssigned" (PTask task)
                        else ret tt) ;;
             emit (IUser._id user) "taskUpdated" (PTask task) ;;
             reply 200 (JTask None task None)
         end
     end)
    serverError.

(** [router.delete('/:id')], behind [authorize('admin')]. *)
Definition deleteTask (user : option IUser.t) (id : string)
  : World -> Response * World :=
  try_catch
    (match user with
     | None => reply 401 (JMessage None "User not authenticated")
     | Some user =>
         found <- Task_findById id ;;
         match found with
         | None => reply 404 (JMessage None "Task not found")
         | Some task =>
             modify (fun w => set_tasks (deleteTaskById id (tasks w)) w) ;;
             forEach (ITask.assignedTo task)
                     (fun userId => emit userId "taskDeleted" (PDeleted id None)) ;;
             emit (IUser._id user) "taskDeleted" (PDeleted id None) ;;
             reply 200 (JMessage None "Task deleted successfully")
         end
     end)
    serverError.

(** The routes as the router mounts them. *)
Definition GET_tasks (authorization : option Token.t) :=
  express (protect authorization (fun u => lift (getTasks (Some u)))).

Definition GET_task (authorization : option Token.t) (id : string) :=
  express (protect authorization (fun u => lift (getTask (Some u) id))).

Definition POST_task (newId : ObjectId) (now : Date)
           (authorization : option Token.t) (body : TaskBody.t) :=
  express (protect authorization (fun u =>
    authorize ["admin"] u (lift (createTask newId now (Some u) body)))).

Definition PUT_task (now : Date) (authorization : option Token.t)
           (id : string) (body : TaskBody.t) :=
  express (protect authorization (fun u =>
    lift (updateTask now (Some u) id body))).

Definition DELETE_task (authorization : option Token.t) (id : string) :=
  express (protect authorization (fun u =>
    authorize ["admin"] u (lift (deleteTask (Some u) id)))).

End Routes.

(** [String.prototype.trim], on the white space of ASCII. *)
Definition isSpace (c : ascii) : bool :=
  let n := nat_of_ascii c in
  (n =? 32)%nat || ((9 <=? n)%nat && (n <=? 13)%nat).

Fixpoint trimStart (cs : list ascii) : list ascii :=
  match cs with
  | c :: cs' => if isSpace c then trimStart cs' else cs
  | [] => []
  end.

Definition trim (s : string) : string :=
  string_of_list_ascii
    (rev (trimStart (rev (trimStart (list_ascii_of_string s))))).

(** ** controllers/taskController.ts *)

Module Controller.

Definition failure (m : string) : Json := JMessage (Some false) m.
Definition serverError : Json := failure "Server error".

(** The query of [getTasks] and [getTaskStats] for a user who is not an
    admin: [{ $or: [{ assignedTo: { $in: [user._id] } },
    { assignedBy: user._id }] }]. *)
Definition visibleTo (user : IUser.t) (t : ITask.t) : bool :=
  mem (IUser._id user) (ITask.assignedTo t)
  || String.eqb (ITask.assignedBy t) (IUser._id user).

(** [taskController.getTasks]. *)
Definition getTasks (user : option IUser.t) : World -> Response * World :=
  try_catch
    (match user with
     | None => reply 401 (JMessage None "User not authenticated")
     | Some user =>
         us <- gets users ;;
         tasks <-
           (if isAdmin user then
              gets (fun w => sortByCreatedAtDesc (tasks w))
            else
              gets (fun w =>
                      sortByCreatedAtDesc (filter (visibleTo user) (tasks w)))) ;;
         reply 200 (JTasks (Some true) (map (populate us) tasks)
                           (Some (length tasks)))
     end)
    serverError.

(** [taskController.getTask]. *)
Definition getTask (user : option IUser.t) (taskId : string)
  : World -> Response * World :=
  try_catch
    (when_reply (negb (ObjectId_isValid taskId)) 400
                (failure "Invalid task ID format") ;;
     found <- Task_findById taskId ;;
     us <- gets users ;;
     match option_map (populate us) found with
     | None => reply 404 (failure "Task not found")
     | Some task =>
         match user with
         | None => reply 401 (failure "User not authenticated")
         | Some user =>
             if isAdmin user then reply 200 (JTask (Some true) task None)
             else
               let assignedToIds := map Ref._id (Populated.assignedTo task) in
               if mem (IUser._id user) assignedToIds
               then reply 200 (JTask (Some true) task None)
               else
                 assignedBy <- populatedToString (Populated.assignedBy task) ;;
                 if String.eqb assignedBy (IUser._id user)
                 then reply 200 (JTask (Some true) task None)
                 else reply 403 (failure "Access denied")
         end
     end)
    serverError.

(** [new Task({ title, description, priority: priority || 'medium',
    status: status || 'todo', assignedTo, assignedBy: user._id,
    dueDate: dueDate ? new Date(dueDate) : undefined })]. *)
Definition newTask (newId : ObjectId) (now : Date) (user : IUser.t)
           (body : TaskBody.t) : ITask.t :=
  ITask.mk newId
           (orElse (TaskBody.title body) "")
           (orElse (TaskBody.description body) "")
           (if truthy (TaskBody.status body)
            then orElse (TaskBody.status body) "todo" else "todo")
           (if truthy (TaskBody.priority body)
            then orElse (TaskBody.priority body) "medium" else "medium")
           (orElse (TaskBody.assignedTo body) [])
           (IUser._id user)
           (TaskBody.dueDate body)
           now now.

(** [taskController.createTask]. *)
Definition createTask (newId : ObjectId) (now : Date) (user : option IUser.t)
           (body : TaskBody.t) : World -> Response * World :=
  try_catch
    (match user with
     | None => reply 401 (failure "User not authenticated")
     | Some user =>
         when_reply (negb (truthy (TaskBody.title body))
                     || negb (truthy (TaskBody.description body))) 400
                    (failure "Title and description are required") ;;
         let assignedTo := orElse (TaskBody.assignedTo body) [] in
         when_reply (Nat.eqb (length assignedTo) 0) 400
           (failure "AssignedTo is required and must be an array of user IDs") ;;
         validUsers <- gets (fun w => findActiveUsersIn assignedTo (users w)) ;;
         when_reply (negb (Nat.eqb (length validUsers) (length assignedTo))) 400
           (failure "One or more assigned users do not exist or are inactive") ;;
         let task := newTask newId now user body in
         saveNewTask task ;;
         us <- gets users ;;
         let task := populate us task in
         forEach (Populated.assignedTo task)
                 (fun userId => emit (Ref._id userId) "taskAssigned" (PTask task)) ;;
         emit (IUser._id user) "taskCreated" (PTask task) ;;
         reply 201 (JTask (Some true) task (Some "Task created successfully"))
     end)
    serverError.

(** [task.canBeModifiedBy(userId, role)]: neither version of models/Task.ts
    declares the method, on the schema or elsewhere, so the call throws. *)
Definition canBeModifiedBy (task : ITask.t) (userId : ObjectId) (role : string)
  : Handler bool :=
  throw "TypeError: task.canBeModifiedBy is not a function".

(** [taskController.updateTask]. *)
Definition updateTask (now : Date) (user : option IUser.t) (id : string)
           (body : TaskBody.t) : World -> Response * World :=
  try_catch
    (match user with
     | None => reply 401 (failure "User not authenticated")
     | Some user =>
         when_reply (String.eqb id "" || String.eqb id "undefined"
                     || String.eqb id "null") 400
                    (failure "Task ID is required and must be valid") ;;
         when_reply (negb (ObjectId_isValid id)) 400
                    (failure "Invalid task ID format") ;;
         found <- Task_findById id ;;
         match found with
         | None => reply 404 (failure "Task not found")
         | Some loaded =>
             canModify <-
               canBeModifiedBy loaded (IUser._id user) (IUser.role user) ;;
             when_reply (negb canModify) 403 (failure "Access denied") ;;
             let originalAssignedTo := ITask.assignedTo loaded in
             let task := assignFields trim body loaded in
             task <-
               match TaskBody.assignedTo body with
               | Some assignedTo =>
                   validUsers <-
                     gets (fun w => findActiveUsersIn assignedTo (users w)) ;;
                   when_reply
                     (negb (Nat.eqb (length validUsers) (length assignedTo)))
                     400
                     (failure
                        "One or more assigned users do not exist or are inactive") ;;
                   ret (set_assignedTo assignedTo task)
               | None => ret task
               end ;;
             let task := timestamps now loaded task in
             saveTask task ;;
             us <- gets users ;;
             let task := populate us task in
             forEach originalAssignedTo
                     (fun userId => emit userId "taskUpdated" (PTask task)) ;;
             forEach (Populated.assignedTo task)
                     (fun userId =>
                        if negb (existsb
                                   (fun id => String.eqb id (Ref._id userId))
                                   originalAssignedTo)
                        then emit (Ref._id userId) "taskAssigned" (PTask task)
                        else ret tt) ;;
             assignedBy <- populatedToString (Populated.assignedBy task) ;;
             emit assignedBy "taskUpdated" (PTask task) ;;
             (if isAdmin user
              then emit (IUser._id user) "taskUpdated" (PTask task)
              else ret tt) ;;
             reply 200 (JTask (Some true) task
                              (Some "Task updated successfully"))
         end
     end)
    serverError.

(** [taskController.deleteTask]. *)
Definition deleteTask (user : option IUser.t) (id : string)
  : World -> Response * World :=
  try_catch
    (match user with
     | None => reply 401 (failure "User not authenticated")
     | Some user =>
         found <- Task_findById id ;;
         match found with
         | None => reply 404 (failure "Task not found")
         | Some task =>
             when_reply (negb (isAdmin user)
                         && negb (String.eqb (ITask.assignedBy task)
                                             (IUser._id user)))
                        403 (failure "Access denied") ;;
             modify (fun w => set_tasks (deleteTaskById id (tasks w)) w) ;;
             let deleted := PDeleted id (Some "Task has been deleted") in
             forEach (ITask.assignedTo task)
                     (fun userId => emit userId "taskDeleted" deleted) ;;
             emit (ITask.assignedBy task) "taskDeleted" deleted ;;
             (if isAdmin user
              then emit (IUser._id user) "taskDeleted" deleted
              else ret tt) ;;
             reply 200 (JMessage (Some true) "Task deleted successfully")
         end
     end)
    serverError.

End Controller.

(** ** Sample data and shorthands used by the statements *)

Definition hexId (c : ascii) : ObjectId :=
  string_of_list_ascii (repeat c 24).

Definition noWorld : World := mkWorld [] [] [].

(** A body that carries [status] only, and one that carries [status] and
    [priority]. *)
Definition statusOnly (s : string) : TaskBody.t :=
  TaskBody.mk None None (Some s) None None None 0.

Definition statusAndPriority (s p : string) : TaskBody.t :=
  TaskBody.mk None None (Some s) (Some p) None None 0.

(** The document an update saves: the fields of the body written over the
    loaded task, [f] being what the handler does to [title] and
    [description], with [updatedAt] set if a path changed. *)
Definition updatedDoc (f : string -> string) (now : Date) (body : TaskBody.t)
           (task : ITask.t) : ITask.t :=
  timestamps now task
    (match TaskBody.assignedTo body with
     | Some a => set_assignedTo a (assignFields f body task)
     | None => assignFields f body task
     end).

(** Whether the ids a body assigns pass the handler's test. *)
Definition resolves (find : list ObjectId -> list IUser.t -> list IUser.t)
           (body : TaskBody.t) (us : list IUser.t) : bool :=
  match TaskBody.assignedTo body with
  | Some a => Nat.eqb (length (find a us)) (length a)
  | None => true
  end.

Definition taskUpdatedTo (p : Payload) (ids : list ObjectId) : list Emit :=
  map (fun i => mkEmit i "taskUpdated" p) ids.

Definition taskAssignedTo (p : Payload) (ids : list ObjectId) : list Emit :=
  map (fun i => mkEmit i "taskAssigned" p) ids.

(** The references of [refs] whose id is not among [original]. *)
Definition newcomers (original : list ObjectId) (refs : list Ref.t) : list Ref.t :=
  filter (fun r => negb (existsb (fun id => String.eqb id (Ref._id r)) original))
         refs.

(** The users a request names, by role. *)
Definition nonAdmin (u : IUser.t) : Prop := IUser.role u <> "admin".

(** The ids of the stored users are pairwise distinct, as [_id] is the key
    of the collection. *)
Definition uniqueIds (w : World) : Prop := NoDup (map IUser._id (users w)).

(** Sample accounts and tasks. *)
Definition alice : IUser.t :=
  IUser.mk (hexId "a") "Alice" "alice@x.io" "pw" "admin" true.
Definition bob : IUser.t :=
  IUser.mk (hexId "b") "Bob" "bob@x.io" "pw" "user" true.
Definition carol : IUser.t :=
  IUser.mk (hexId "c") "Carol" "carol@x.io" "pw" "user" true.
Definition dave : IUser.t :=
  IUser.mk (hexId "d") "Dave" "dave@x.io" "pw" "user" false.
Definition erin : IUser.t :=
  IUser.mk (hexId "e") "Erin" "erin@x.io" "pw" "user" true.
Definition frank : IUser.t :=
  IUser.mk (hexId "f") "Frank" "frank@x.io" "pw" "admin" true.

(** A task of Alice's, assigned to Bob and Carol. *)
Definition ship : ITask.t :=
  ITask.mk (hexId "1") "Ship" "v1" "todo" "medium"
           [hexId "b"; hexId "c"] (hexId "a") None 100%Z 100%Z.

(** A task of Erin's, assigned to Bob. *)
Definition docs : ITask.t :=
  ITask.mk (hexId "2") "Docs" "write them" "review" "low"
           [hexId "b"] (hexId "e") (Some 900%Z) 200%Z 200%Z.

Definition office : World :=
  mkWorld [alice; bob; carol; dave; erin; frank] [ship; docs] [].

(** "Most recently created first". *)
Definition newerFirst (a b : ITask.t) : Prop :=
  (ITask.createdAt b <= ITask.createdAt a)%Z.

(** The tokens [jwt.sign] gives Erin and Frank at login. *)
Definition erinToken : Token.t := jwt_sign (hexId "e") "user" JWT_SECRET "7d".
Definition frankToken : Token.t := jwt_sign (hexId "f") "admin" JWT_SECRET "7d".

(** The rooms and names of a list of events. *)
Definition deliveries (es : list Emit) : list (string * string) :=
  map (fun e => (room e, event e)) es.

Definition aliceToken : Token.t := jwt_sign (hexId "a") "admin" JWT_SECRET "7d".

(** The ids of the stored tasks are pairwise distinct. *)
Definition uniqueTaskIds (w : World) : Prop := NoDup (map ITask._id (tasks w)).
(** ** The login route of server.ts *)

Module Login.

(** [const { email, password } = req.body]. *)
Record LoginBody := mkBody { email : string; password : string }.

Section Bcrypt.

(** [bcrypt.compare(password, hash)], the test behind
    [user.comparePassword]; it belongs to bcryptjs. *)
Variable bcrypt_compare : string -> string -> bool.

(** [app.post('/api/auth/login')]. *)
Definition login (body : LoginBody) : World -> Response * World :=
  try_catch
    (user <- gets (fun w => findUserByEmail (email body) (users w)) ;;
     match user with
     | None => reply 401 (JMessage None "Invalid credentials")
     | Some user =>
         let isMatch := bcrypt_compare (password body) (IUser.password user) in
         when_reply (negb isMatch) 401 (JMessage None "Invalid credentials") ;;
         let token := jwt_sign (IUser._id user) (IUser.role user)
                               JWT_SECRET "5d" in
         reply 200 (JAuth token
                          (UserView.mk (IUser._id user) (IUser.name user)
                                       (IUser.email user) (IUser.role user)))
     end)
    (JMessage None "Server error").

End Bcrypt.

End Login.

(** ** The statistics of taskController.ts *)

Module Stats.

(** [{ $group: { _id: '$status', count: { $sum: 1 } } }]: one group for each
    status that occurs, with the number of its documents. *)
Fixpoint bump (s : string) (groups : list (string * nat)) : list (string * nat) :=
  match groups with
  | [] => [(s, 1)]
  | (s', n) :: groups' =>
      if String.eqb s' s then (s', S n) :: groups'
      else (s', n) :: bump s groups'
  end.

Definition group (ts : list ITask.t) : list (string * nat) :=
  fold_right (fun t groups => bump (ITask.status t) groups) [] ts.

(** [acc[curr._id] = curr.count] over the groups, read back at one key. *)
Fixpoint countOf (s : string) (groups : list (string * nat)) : option nat :=
  match groups with
  | [] => None
  | (s', n) :: groups' => if String.eqb s' s then Some n else countOf s groups'
  end.

(** The [stats] object of the answer. *)
Record t := mk {
  total : nat;
  overdue : nat;
  byStatus : list (string * nat)
}.

Inductive Answer :=
| Failure (success : option bool) (message : string)
| Success (stats : t).

(** [query]: empty for an admin, the [$or] of [getTasks] otherwise. *)
Definition matches (user : IUser.t) (t : ITask.t) : bool :=
  if negb (isAdmin user) then Controller.visibleTo user t else true.

(** [{ ...query, status: { $ne: 'done' }, dueDate: { $lt: new Date() } }];
    a task without [dueDate] does not meet [$lt]. *)
Definition isOverdue (now : Date) (t : ITask.t) : bool :=
  negb (String.eqb (ITask.status t) "done")
  && match ITask.dueDate t with
     | Some d => (d <? now)%Z
     | None => false
     end.

(** [taskController.getTaskStats]; it reads the collection and writes
    nothing, so it is given as a function of the world. *)
Definition getTaskStats (now : Date) (user : option IUser.t) (w : World)
  : nat * Answer :=
  match user with
  | None => (401, Failure (Some false) "User not authenticated")
  | Some user =>
      let matched := filter (matches user) (tasks w) in
      let stats := group matched in
      let totalTasks := length matched in
      let overdueTasks := length (filter (isOverdue now) matched) in
      (200, Success (mk totalTasks overdueTasks stats))
  end.

End Stats.

(** The number of tasks of [ts] in status [s]. *)
Definition inStatus (s : string) (ts : list ITask.t) : nat :=
  length (filter (fun t => String.eqb (ITask.status t) s) ts).

(** The emails of the stored users are pairwise distinct, as the unique
    index of [userSchema] keeps them. *)
Definition uniqueEmails (w : World) : Prop := NoDup (map IUser.email (users w)).

(** The sum of the counts of a list of groups. *)
Definition sumCounts (groups : list (string * nat)) : nat :=
  fold_right (fun g acc => snd g + acc) 0 groups.

(** ** The socket server of server.ts *)

Module Socket.

(** What a client sends with an event: an object of JSON values. *)
#[warnings="-register-all"] Inductive Value :=
| VNull
| VBool (b : bool)
| VNumber (z : Z)
| VString (s : string)
| VArray (items : list Value)
| VObject (fields : list (string * Value)).

Definition Data := list (string * Value).

(** [data[key]]. *)
Fixpoint get (key : string) (data : Data) : option Value :=
  match data with
  | [] => None
  | (k, v) :: data' => if String.eqb k key then Some v else get key data'
  end.

(** A property written after a spread, [{ ...data, key: v }]: it replaces
    the value of a key that [data] has and is added otherwise. *)
Fixpoint put (key : string) (v : Value) (data : Data) : Data :=
  match data with
  | [] => [(key, v)]
  | (k, v') :: data' =>
      if String.eqb k key then (k, v) :: data' else (k, v') :: put key v data'
  end.

(** [(socket as any).user = { id, name, role }]. *)
Record SocketUser := mkUser { id : ObjectId; name : string; role : string }.

(** [io.use(async (socket, next) => ...)]: the handshake either binds the
    connection to a stored account or refuses it with an error. *)
Definition handshake (token : option Token.t) (us : list IUser.t)
  : string + SocketUser :=
  match token with
  | None => inl "Authentication error"
  | Some token =>
      if String.eqb (Token.secret token) JWT_SECRET then
        match findUserById (Token.id token) us with
        | None => inl "User not found"
        | Some user =>
            inr (mkUser (IUser._id user) (IUser.name user) (IUser.role user))
        end
      else inl "Authentication error"
  end.

(** [socket.to(room).emit(event, payload)]. *)
Record Sent := mkSent { to : string; sent : string; data : Data }.

(** [socket.on('admin:broadcast', ...)]. *)
Definition on_admin_broadcast (user : SocketUser) (data : Data) : list Sent :=
  if String.eqb (role user) "admin"
  then [mkSent "user" "user:notification" data]
  else [].

(** [socket.on('user:request', ...)]. *)
Definition on_user_request (user : SocketUser) (data : Data) : list Sent :=
  if String.eqb (role user) "user"
  then [mkSent "admin" "admin:request"
               (put "userName" (VString (name user))
                    (put "userId" (VString (id user)) data))]
  else [].

End Socket.

(** ** routes/users.ts: role and status of an account *)

Module Users.

(** The user of an answer, after [.select('-password')]. *)
Record View := mkView {
  _id : ObjectId;
  name : string;
  email : string;
  role : string;
  isActive : bool
}.

Definition view (u : IUser.t) : View :=
  mkView (IUser._id u) (IUser.name u) (IUser.email u) (IUser.role u)
         (IUser.isActive u).

Inductive Answer :=
| Failure (message : string)
| Success (user : View).

Definition set_role (r : string) (u : IUser.t) : IUser.t :=
  IUser.mk (IUser._id u) (IUser.name u) (IUser.email u) (IUser.password u)
           r (IUser.isActive u).

Definition set_isActive (b : bool) (u : IUser.t) : IUser.t :=
  IUser.mk (IUser._id u) (IUser.name u) (IUser.email u) (IUser.password u)
           (IUser.role u) b.

(** The write of [User.findByIdAndUpdate(id, update)]: the first account
    with the id is replaced by its update. *)
Fixpoint updateById (id : ObjectId) (f : IUser.t -> IUser.t) (us : list IUser.t)
  : list IUser.t :=
  match us with
  | [] => []
  | u :: us' =>
      if String.eqb (IUser._id u) id then f u :: us'
      else u :: updateById id f us'
  end.

(** [User.findByIdAndUpdate(req.params.id, update, { new: true,
    runValidators: true }).select('-password')] and the answers that
    follow it in both routes; an id that cannot be cast makes the query
    throw, which the [catch] answers 500. *)
Definition findByIdAndUpdate (id : string) (f : IUser.t -> IUser.t) (w : World)
  : (nat * Answer) * World :=
  if ObjectId_isValid id then
    match findUserById id (users w) with
    | None => ((404, Failure "User not found"), w)
    | Some u => ((200, Success (view (f u))),
                 set_users (updateById id f (users w)) w)
    end
  else ((500, Failure "Server error"), w).

Definition quote : string := String (Ascii.ascii_of_nat 34) EmptyString.

(** [router.put('/:id/role')], behind [authorize('admin')]. *)
Definition updateRole (id : string) (role : option string) (w : World)
  : (nat * Answer) * World :=
  let invalid :=
    ((400, Failure ("Invalid role. Must be " ++ quote ++ "admin" ++ quote
                    ++ " or " ++ quote ++ "user" ++ quote)), w) in
  match role with
  | Some r =>
      if negb (mem r ["admin"; "user"]) then invalid
      else findByIdAndUpdate id (set_role r) w
  | None => invalid
  end.

(** [router.put('/:id/status')], behind [authorize('admin')], for a body
    that carries a boolean [isActive]. *)
Definition updateStatus (id : string) (isActive : bool) (w : World)
  : (nat * Answer) * World :=
  findByIdAndUpdate id (set_isActive isActive) w.

End Users.

(** A task whose creator's account is gone, and a store that holds it. *)
Definition orphan : ITask.t :=
  ITask.mk (hexId "4") "Old" "left behind" "todo" "low"
           [hexId "b"] (hexId "0") None 50%Z 50%Z.

Definition attic : World := mkWorld [alice; bob; carol] [orphan] [].

(** The spelling the store has for an id: 24 digits, the letters in lower
    case. *)
Definition isLowerHex (c : ascii) : bool :=
  let n := nat_of_ascii c in
  ((48 <=? n)%nat && (n <=? 57)%nat) || ((97 <=? n)%nat && (n <=? 102)%nat).

Definition isCanonical (s : string) : bool :=
  (String.length s =? 24)%nat && forallb isLowerHex (list_ascii_of_string s).

(** * Properties *)

Unset Implicit Arguments.

(** ** Running handlers *)

Ltac run_handler :=
  repeat (progress
            (unfold try_catch, lift, express, bind, when_reply, reply, ret, gets,
              modify, throw, emit, saveNewUser, saveNewTask, saveTask,
              Task_findById in *)).

Lemma forEach_emit A (f : A -> string) (ev : string) (p : Payload)
      (xs : list A) (w : World) :
  forEach xs (fun x => emit (f x) ev p) w
  = (Next tt,
     mkWorld (users w) (tasks w)
             (emitted w ++ map (fun x => mkEmit (f x) ev p) xs)).
Proof.
  revert w; induction xs as [|x xs IH]; intros w; simpl.
  - unfold ret. rewrite app_nil_r. now destruct w.
  - unfold bind, emit, modify. rewrite IH. simpl.
    now rewrite <- app_assoc.
Qed.

Lemma forEach_emit_if A (c : A -> bool) (f : A -> string) (ev : string)
      (p : Payload) (xs : list A) (w : World) :
  forEach xs (fun x => if c x then emit (f x) ev p else ret tt) w
  = (Next tt,
     mkWorld (users w) (tasks w)
             (emitted w ++ map (fun x => mkEmit (f x) ev p) (filter c xs))).
Proof.
  revert w; induction xs as [|x xs IH]; intros w; simpl.
  - unfold ret. rewrite app_nil_r. now destruct w.
  - unfold bind. destruct (c x); simpl.
    + unfold emit, modify. rewrite IH. simpl. now rewrite <- app_assoc.
    + unfold ret. apply IH.
Qed.

Lemma mem_In (s : string) (l : list string) : mem s l = true <-> In s l.
Proof.
  unfold mem. rewrite existsb_exists. split.
  - intros [x [Hx He]]. apply String.eqb_eq in He. now subst.
  - intros H. exists s. split; [assumption | apply String.eqb_refl].
Qed.

Lemma mem_false (s : string) (l : list string) : mem s l = false <-> ~ In s l.
Proof.
  rewrite <- mem_In. destruct (mem s l); split; congruence.
Qed.

Lemma findUserById_id (i : ObjectId) (us : list IUser.t) (u : IUser.t) :
  findUserById i us = Some u -> IUser._id u = i /\ In u us.
Proof.
  unfold findUserById. intros H. apply find_some in H as [Hin He].
  apply String.eqb_eq in He. now split.
Qed.

Lemma findTaskById_id (i : ObjectId) (ts : list ITask.t) (t : ITask.t) :
  findTaskById i ts = Some t -> ITask._id t = i /\ In t ts.
Proof.
  unfold findTaskById. intros H. apply find_some in H as [Hin He].
  apply String.eqb_eq in He. now split.
Qed.

(** ** Register *)

(** C10. The register route takes the role of the new user from the body
    and falls back to 'user' only when the body has no role: a request with
    a name, a password, an email that no stored user has, and role 'admin'
    stores a user with role 'admin' and answers 201 with a token signed for
    role 'admin'; without a role the same request stores a 'user'.  This
    holds for both copies of the route, which differ in [expiresIn]. *)
Theorem register_takes_role_from_body
        (expiresIn : string) (newId : ObjectId) (body : Auth.RegisterBody)
        (w : World) :
  Auth.name body <> "" -> Auth.email body <> "" -> Auth.password body <> "" ->
  findUserByEmail (Auth.email body) (users w) = None ->
  let created role :=
    IUser.mk newId (Auth.name body) (Auth.email body) (Auth.password body)
             role true in
  let answer role :=
    res 201 (JAuth (jwt_sign newId role JWT_SECRET expiresIn)
                   (UserView.mk newId (Auth.name body) (Auth.email body) role)) in
  (Auth.role body = Some "admin" ->
   Auth.register expiresIn newId body w
   = (answer "admin", set_users (users w ++ [created "admin"]) w))
  /\ (Auth.role body = None ->
      Auth.register expiresIn newId body w
      = (answer "user", set_users (users w ++ [created "user"]) w)).
Proof.
  intros Hn He Hp Hfresh created answer.
  apply String.eqb_neq in Hn, He, Hp.
  split; intros Hrole; unfold Auth.register; rewrite Hrole; run_handler;
    rewrite Hfresh; simpl; unfold validUser; simpl;
    rewrite Hn, He, Hp; simpl; rewrite Hfresh; reflexivity.
Qed.

Lemma register_takes_role_from_body_witness :
  Auth.server_register (hexId "a") (Auth.mkBody "Eve" "eve@x.io" "pw" (Some "admin"))
                       noWorld
  = (res 201 (JAuth (jwt_sign (hexId "a") "admin" JWT_SECRET "7d")
                    (UserView.mk (hexId "a") "Eve" "eve@x.io" "admin")),
     mkWorld [IUser.mk (hexId "a") "Eve" "eve@x.io" "pw" "admin" true] [] []).
Proof.
  exact (proj1 (@register_takes_role_from_body
                  "7d" (hexId "a")
                  (Auth.mkBody "Eve" "eve@x.io" "pw" (Some "admin")) noWorld
                  ltac:(discriminate) ltac:(discriminate) ltac:(discriminate)
                  eq_refl)
               eq_refl).
Defined.

(** ** Updating a task *)

Lemma isValid_not_placeholder (id : string) :
  ObjectId_isValid id = true ->
  (String.eqb id "" || String.eqb id "undefined" || String.eqb id "null") = false.
Proof.
  intros H.
  destruct (String.eqb_spec id ""); [subst; discriminate|].
  destruct (String.eqb_spec id "undefined"); [subst; discriminate|].
  destruct (String.eqb_spec id "null"); [subst; discriminate|].
  reflexivity.
Qed.

Lemma nonAdmin_isAdmin (u : IUser.t) : nonAdmin u <-> isAdmin u = false.
Proof.
  unfold nonAdmin, isAdmin. now rewrite String.eqb_neq.
Qed.

(** What [router.put('/:id')] does once the task is found. *)
Lemma Routes_updateTask_found
      (now : Date) (U : IUser.t) (id : string) (body : TaskBody.t) (w : World)
      (T : ITask.t) :
  ObjectId_isValid id = true ->
  findTaskById id (tasks w) = Some T ->
  Routes.updateTask now (Some U) id body w
  = if negb (Routes.canWrite U T body) then
      (res 403 (JMessage None "Access denied"), w)
    else if negb (resolves findUsersIn body (users w)) then
      (res 400 (JMessage None "One or more assigned users do not exist"), w)
    else
      let d := updatedDoc (fun x => x) now body T in
      if negb (validTask d) then (res 500 serverError, w)
      else
        let p := PTask (populate (users w) d) in
        (res 200 (JTask None (populate (users w) d) None),
         mkWorld (users w) (replaceTask d (tasks w))
                 (emitted w
                  ++ taskUpdatedTo p (ITask.assignedTo T)
                  ++ map (fun r => mkEmit (Ref._id r) "taskAssigned" p)
                         (newcomers (ITask.assignedTo T)
                                    (populateMany (users w) (ITask.assignedTo d)))
                  ++ [mkEmit (IUser._id U) "taskUpdated" p])).
Proof.
  intros Hvalid Hfound.
  unfold Routes.updateTask, resolves, updatedDoc.
  unfold try_catch at 1.
  unfold bind at 1. unfold when_reply at 1.
  rewrite (isValid_not_placeholder _ Hvalid).
  unfold ret at 1.
  unfold bind at 1. unfold when_reply at 1. rewrite Hvalid. cbn [negb].
  unfold ret at 1.
  unfold bind at 1. unfold Task_findById. rewrite Hvalid.
  unfold gets at 1. rewrite Hfound.
  unfold bind at 1. unfold when_reply at 1.
  destruct (Routes.canWrite U T body); cbn [negb]; [|reflexivity].
  unfold ret at 1.
  destruct (TaskBody.assignedTo body) as [a|].
  - unfold bind at 1. unfold bind at 1. unfold gets at 1.
    unfold bind at 1. unfold when_reply at 1.
    destruct (Nat.eqb (length (findUsersIn a (users w))) (length a));
      cbn [negb]; [|reflexivity].
    unfold ret at 1. unfold ret at 1.
    unfold bind at 1. unfold saveTask.
    destruct (validTask _); cbn [negb]; [|reflexivity].
    unfold modify at 1. unfold bind at 1. unfold gets at 1.
    unfold bind at 1. rewrite forEach_emit.
    unfold bind at 1.
    rewrite (forEach_emit_if _
               (fun userId : Ref.t =>
                  negb (existsb (fun id0 => String.eqb id0 (Ref._id userId))
                                (ITask.assignedTo T)))
               Ref._id).
    unfold bind, emit, modify, reply, taskUpdatedTo, newcomers.
    cbv [push_emit set_tasks users tasks emitted populate Populated.assignedTo].
    rewrite <- !app_assoc. reflexivity.
  - unfold bind at 1. unfold ret at 1.
    unfold bind at 1. unfold saveTask. cbn [negb].
    destruct (validTask _); cbn [negb]; [|reflexivity].
    unfold modify at 1. unfold bind at 1. unfold gets at 1.
    unfold bind at 1. rewrite forEach_emit.
    unfold bind at 1.
    rewrite (forEach_emit_if _
               (fun userId : Ref.t =>
                  negb (existsb (fun id0 => String.eqb id0 (Ref._id userId))
                                (ITask.assignedTo T)))
               Ref._id).
    unfold bind, emit, modify, reply, taskUpdatedTo, newcomers.
    cbv [push_emit set_tasks users tasks emitted populate Populated.assignedTo].
    rewrite <- !app_assoc. reflexivity.
Qed.

(** C1. A user who is neither admin nor the creator of a task and who is
    among its assignees may send a body that carries [status] alone, and is
    refused with 403 when the body carries [status] and [priority]. *)
Theorem assignee_writes_status_only
        (U : IUser.t) (T : ITask.t) (s p : string) :
  nonAdmin U ->
  IUser._id U <> ITask.assignedBy T ->
  In (IUser._id U) (ITask.assignedTo T) ->
  s <> "" ->
  Routes.canWrite U T (statusOnly s) = true
  /\ Routes.canWrite U T (statusAndPriority s p) = false
  /\ (forall (now : Date) (w : World),
         ObjectId_isValid (ITask._id T) = true ->
         findTaskById (ITask._id T) (tasks w) = Some T ->
         code (fst (Routes.updateTask now (Some U) (ITask._id T)
                                      (statusOnly s) w)) <> 403
         /\ Routes.updateTask now (Some U) (ITask._id T)
                              (statusAndPriority s p) w
            = (res 403 (JMessage None "Access denied"), w)).
Proof.
  intros Hrole Hcreator Hassigned Hs.
  apply nonAdmin_isAdmin in Hrole.
  assert (Hneq : String.eqb (ITask.assignedBy T) (IUser._id U) = false)
    by (apply String.eqb_neq; congruence).
  apply mem_In in Hassigned. apply String.eqb_neq in Hs.
  assert (H1 : Routes.canWrite U T (statusOnly s) = true).
  { unfold Routes.canWrite, statusOnly. rewrite Hrole, Hneq. cbn.
    now rewrite Hs. }
  assert (H2 : Routes.canWrite U T (statusAndPriority s p) = false).
  { unfold Routes.canWrite, statusAndPriority. rewrite Hrole, Hneq. cbn.
    now rewrite Hs. }
  repeat split; try assumption.
  - rewrite (@Routes_updateTask_found now U _ (statusOnly s) w _ H H0).
    rewrite H1. cbn [negb resolves statusOnly TaskBody.assignedTo].
    destruct (validTask _); cbn; discriminate.
  - rewrite (@Routes_updateTask_found now U _ (statusAndPriority s p) w _ H H0).
    now rewrite H2.
Qed.

Lemma assignee_writes_status_only_witness :
  Routes.canWrite bob ship (statusOnly "done") = true
  /\ Routes.canWrite bob ship (statusAndPriority "done" "high") = false.
Proof.
  destruct (@assignee_writes_status_only bob ship "done" "high"
              ltac:(discriminate) ltac:(discriminate)
              ltac:(simpl; auto) ltac:(discriminate)) as [H1 [H2 _]].
  exact (conj H1 H2).
Defined.

(** ** Reading one task *)




(** Whatever [router.put('/:id')] answers other than 200, it leaves the
    world as it found it. *)
Lemma Routes_updateTask_failure
      (now : Date) (user : option IUser.t) (id : string) (body : TaskBody.t)
      (w : World) :
  code (fst (Routes.updateTask now user id body w)) <> 200 ->
  snd (Routes.updateTask now user id body w) = w.
Proof.
  destruct (ObjectId_isValid id) eqn:Hvalid.
  - destruct user as [U|].
    + destruct (findTaskById id (tasks w)) as [T|] eqn:Hfound.
      * rewrite (@Routes_updateTask_found now U _ body w _ Hvalid Hfound).
        destruct (negb (Routes.canWrite U T body)); [reflexivity|].
        destruct (negb (resolves findUsersIn body (users w))); [reflexivity|].
        cbv zeta. destruct (negb (validTask _)); [reflexivity|].
        cbn. congruence.
      * intros _. unfold Routes.updateTask. run_handler.
        rewrite (isValid_not_placeholder _ Hvalid), Hvalid. cbn.
        now rewrite Hfound.
    + intros _. unfold Routes.updateTask. run_handler.
      now rewrite (isValid_not_placeholder _ Hvalid), Hvalid.
  - intros _. unfold Routes.updateTask. run_handler. rewrite Hvalid.
    now destruct (_ || _).
Qed.

(** C9. When [router.put('/:id')] answers 400 because an id of
    [assignedTo] names no user, the stored tasks are what they were, with
    the fields the body also carried left unwritten, and no event was
    emitted: the assignments were made on the loaded document, which is
    dropped before [save]. *)
Theorem rejected_assignees_leave_task_untouched
        (now : Date) (user : option IUser.t) (id : string) (body : TaskBody.t)
        (w : World) :
  fst (Routes.updateTask now user id body w)
  = res 400 (JMessage None "One or more assigned users do not exist") ->
  tasks (snd (Routes.updateTask now user id body w)) = tasks w
  /\ emitted (snd (Routes.updateTask now user id body w)) = emitted w
  /\ users (snd (Routes.updateTask now user id body w)) = users w.
Proof.
  intros H.
  rewrite Routes_updateTask_failure; [auto|].
  rewrite H. cbn. discriminate.
Qed.

Lemma rejected_assignees_leave_task_untouched_witness :
  let body :=
    TaskBody.mk (Some "Ship it") None (Some "done") None
                (Some [hexId "b"; hexId "9"]) None 0 in
  fst (Routes.updateTask 300%Z (Some alice) (hexId "1") body office)
  = res 400 (JMessage None "One or more assigned users do not exist")
  /\ tasks (snd (Routes.updateTask 300%Z (Some alice) (hexId "1") body office))
     = [ship; docs]
  /\ emitted (snd (Routes.updateTask 300%Z (Some alice) (hexId "1") body office))
     = [].
Proof.
  intros body.
  assert (H : fst (Routes.updateTask 300%Z (Some alice) (hexId "1") body office)
              = res 400 (JMessage None "One or more assigned users do not exist"))
    by reflexivity.
  destruct (@rejected_assignees_leave_task_untouched
              300%Z (Some alice) (hexId "1") body office H) as [Ht [He _]].
  split; [exact H|]. split; [exact Ht | exact He].
Defined.

(** ** Populating references *)

Lemma populateMany_ids (us : list IUser.t) (ids : list ObjectId) (i : ObjectId) :
  In i (map Ref._id (populateMany us ids))
  <-> In i ids /\ findUserById i us <> None.
Proof.
  induction ids as [|j ids IH]; simpl.
  - tauto.
  - destruct (findUserById j us) as [u|] eqn:Hj; simpl.
    + apply findUserById_id in Hj as Hid. destruct Hid as [Hid _].
      rewrite IH, Hid. split.
      * intros [H | H]; [|tauto]. subst i.
        split; [auto|]. rewrite Hj. discriminate.
      * intros [[H | H] Hf]; [left; congruence | right; tauto].
    + rewrite IH. split; [tauto|].
      intros [[H | H] Hf]; [subst; contradiction | tauto].
Qed.

Lemma populateMany_all (us : list IUser.t) (ids : list ObjectId) :
  (forall i, In i ids -> findUserById i us <> None) ->
  map Ref._id (populateMany us ids) = ids.
Proof.
  induction ids as [|j ids IH]; simpl; intros H; [reflexivity|].
  destruct (findUserById j us) as [u|] eqn:Hj.
  - apply findUserById_id in Hj as [Hid _]. simpl. rewrite Hid, IH; auto.
  - exfalso. apply (H j); auto.
Qed.

Lemma mem_populated (us : list IUser.t) (ids : list ObjectId) (U : IUser.t) :
  findUserById (IUser._id U) us = Some U ->
  mem (IUser._id U) (map Ref._id (populateMany us ids)) = mem (IUser._id U) ids.
Proof.
  intros HU.
  destruct (mem (IUser._id U) ids) eqn:Hm.
  - apply mem_In. apply populateMany_ids. split; [now apply mem_In|].
    rewrite HU. discriminate.
  - apply mem_false. intros Hin. apply populateMany_ids in Hin as [Hin _].
    apply mem_false in Hm. contradiction.
Qed.

Lemma length_append (a b : string) :
  String.length (a ++ b) = String.length a + String.length b.
Proof.
  induction a as [|c a IH]; simpl; [reflexivity | now rewrite IH].
Qed.

Lemma isValid_length (id : string) :
  ObjectId_isValid id = true -> String.length id <= 24.
Proof.
  unfold ObjectId_isValid. rewrite orb_true_iff, andb_true_iff, !Nat.eqb_eq.
  intros [[H _] | H]; lia.
Qed.

(** The text of a populated document is never the id of a user. *)
Lemma documentString_no_id (r : Ref.t) (id : string) :
  ObjectId_isValid id = true -> String.eqb (documentString r) id = false.
Proof.
  intros Hvalid. apply isValid_length in Hvalid.
  apply String.eqb_neq. intros E.
  assert (L : String.length (documentString r) = String.length id)
    by now rewrite E.
  unfold documentString in L. rewrite !length_append in L. simpl in L. lia.
Qed.

(** What [router.get('/:id')] answers for a stored task. *)
Lemma Routes_getTask_found (U : IUser.t) (T : ITask.t) (w : World) :
  findUserById (IUser._id U) (users w) = Some U ->
  ObjectId_isValid (ITask._id T) = true ->
  findTaskById (ITask._id T) (tasks w) = Some T ->
  Routes.getTask (Some U) (ITask._id T) w
  = (if isAdmin U || mem (IUser._id U) (ITask.assignedTo T) then
       res 200 (JTask None (populate (users w) T) None)
     else
       match populateOne (users w) (ITask.assignedBy T) with
       | Some r =>
           if String.eqb (documentString r) (IUser._id U)
           then res 200 (JTask None (populate (users w) T) None)
           else res 403 (JMessage None "Access denied")
       | None => res 500 serverError
       end, w).
Proof.
  intros HU Hvalid Hfound.
  unfold Routes.getTask. run_handler. rewrite Hvalid. cbn [negb].
  rewrite Hfound.
  cbn [option_map populate Populated.assignedTo Populated.assignedBy].
  rewrite (mem_populated _ _ _ HU).
  destruct (isAdmin U); [reflexivity|].
  destruct (mem (IUser._id U) (ITask.assignedTo T)); [reflexivity|].
  cbn [orb]. unfold populatedToString.
  destruct (populateOne (users w) (ITask.assignedBy T)) as [r|]; [|reflexivity].
  unfold ret. now destruct (String.eqb (documentString r) (IUser._id U)).
Qed.

(** What [taskController.getTask] answers for a stored task. *)
Lemma Controller_getTask_found (U : IUser.t) (T : ITask.t) (w : World) :
  findUserById (IUser._id U) (users w) = Some U ->
  ObjectId_isValid (ITask._id T) = true ->
  findTaskById (ITask._id T) (tasks w) = Some T ->
  Controller.getTask (Some U) (ITask._id T) w
  = (if isAdmin U || mem (IUser._id U) (ITask.assignedTo T) then
       res 200 (JTask (Some true) (populate (users w) T) None)
     else
       match populateOne (users w) (ITask.assignedBy T) with
       | Some r =>
           if String.eqb (documentString r) (IUser._id U)
           then res 200 (JTask (Some true) (populate (users w) T) None)
           else res 403 (Controller.failure "Access denied")
       | None => res 500 Controller.serverError
       end, w).
Proof.
  intros HU Hvalid Hfound.
  unfold Controller.getTask. run_handler. rewrite Hvalid. cbn [negb].
  rewrite Hfound.
  cbn [option_map populate Populated.assignedTo Populated.assignedBy].
  rewrite (mem_populated _ _ _ HU).
  destruct (isAdmin U); [reflexivity|].
  destruct (mem (IUser._id U) (ITask.assignedTo T)); [reflexivity|].
  cbn [orb]. unfold populatedToString.
  destruct (populateOne (users w) (ITask.assignedBy T)) as [r|]; [|reflexivity].
  unfold ret. now destruct (String.eqb (documentString r) (IUser._id U)).
Qed.

(** C4 fails on [router.get('/:id')].  The handler is written to let the
    creator read the task ("User can access task if they created it"), but
    it compares the requester's id with [task.assignedBy.toString()] after
    [populate('assignedBy')], which is the text of the creator's document
    and never an id.  Erin, who is not an admin, created the task [docs] and
    is not among its assignees: her [get] is answered 403.  And where the
    claim says 403, for a requester with no tie to the task, the answer is
    500 when the creator's account is gone, as for Carol and [orphan]. *)
Theorem router_get_refuses_creator :
  isAdmin erin = false
  /\ findUserById (IUser._id erin) (users office) = Some erin
  /\ findTaskById (hexId "2") (tasks office) = Some docs
  /\ ITask.assignedBy docs = IUser._id erin
  /\ Routes.getTask (Some erin) (hexId "2") office
     = (res 403 (JMessage None "Access denied"), office)
  /\ findTaskById (hexId "4") (tasks attic) = Some orphan
  /\ findUserById (ITask.assignedBy orphan) (users attic) = None
  /\ Routes.getTask (Some carol) (hexId "4") attic = (res 500 serverError, attic).
Proof.
  repeat split; vm_compute; reflexivity.
Qed.

(** ** The test on assigned users *)

Lemma found_ids_distinct (q : IUser.t -> bool) (us : list IUser.t) :
  NoDup (map IUser._id us) -> NoDup (map IUser._id (filter q us)).
Proof.
  intros Hnd. induction us as [|u us IH]; cbn in *; [exact Hnd|].
  apply NoDup_cons_iff in Hnd as [Hfresh Hrest].
  destruct (q u); cbn; [|now apply IH].
  apply NoDup_cons_iff. split; [|now apply IH].
  contradict Hfresh. apply in_map_iff in Hfresh as [v [Hv Hin]].
  apply in_map_iff. exists v. split; [exact Hv|]. now apply filter_In in Hin.
Qed.

Lemma findUserById_unique (us : list IUser.t) (u : IUser.t) :
  NoDup (map IUser._id us) -> In u us -> findUserById (IUser._id u) us = Some u.
Proof.
  unfold findUserById.
  induction us as [|v us IH]; simpl; intros Hnd Hin; [contradiction|].
  inversion Hnd as [|x xs Hnotin Hnodup]; subst.
  destruct Hin as [-> | Hin].
  - now rewrite String.eqb_refl.
  - destruct (String.eqb_spec (IUser._id v) (IUser._id u)) as [E|_]; [|auto].
    exfalso. apply Hnotin. rewrite E. now apply in_map.
Qed.

(** If the query [{ _id: { $in: ids }, ... }] returns as many users as
    [ids] is long, then no id occurs twice and each id names a stored user
    that meets the rest of the query. *)
Lemma as_many_users_as_ids
      (q : IUser.t -> bool) (us : list IUser.t) (ids : list ObjectId) :
  NoDup (map IUser._id us) ->
  length (filter (fun u => mem (IUser._id u) ids && q u) us) = length ids ->
  NoDup ids
  /\ forall i, In i ids ->
               exists u, findUserById i us = Some u /\ q u = true.
Proof.
  intros Hnd Hlen.
  set (found := filter (fun u => mem (IUser._id u) ids && q u) us) in *.
  assert (HndL : NoDup (map IUser._id found)) by now apply found_ids_distinct.
  assert (Hincl : incl (map IUser._id found) ids).
  { intros i Hi. apply in_map_iff in Hi as [u [<- Hu]].
    apply filter_In in Hu as [_ Hu]. apply andb_true_iff in Hu as [Hu _].
    now apply mem_In. }
  assert (Hle : length ids <= length (map IUser._id found))
    by (rewrite length_map; lia).
  split.
  - exact (NoDup_incl_NoDup HndL Hle Hincl).
  - intros i Hi.
    apply (NoDup_length_incl HndL Hle Hincl) in Hi.
    apply in_map_iff in Hi as [u [<- Hu]].
    apply filter_In in Hu as [Hin Hu]. apply andb_true_iff in Hu as [_ Hq].
    exists u. split; [now apply findUserById_unique | assumption].
Qed.

Lemma findUsersIn_all (us : list IUser.t) (ids : list ObjectId) :
  NoDup (map IUser._id us) ->
  length (findUsersIn ids us) = length ids ->
  NoDup ids /\ forall i, In i ids -> findUserById i us <> None.
Proof.
  intros Hnd Hlen.
  destruct (as_many_users_as_ids (fun _ => true) us ids Hnd) as [H1 H2].
  - rewrite <- Hlen. unfold findUsersIn. f_equal. apply filter_ext.
    intros u. now rewrite andb_true_r.
  - split; [assumption|]. intros i Hi. destruct (H2 i Hi) as [u [Hu _]].
    rewrite Hu. discriminate.
Qed.

Lemma findActiveUsersIn_all (us : list IUser.t) (ids : list ObjectId) :
  NoDup (map IUser._id us) ->
  length (findActiveUsersIn ids us) = length ids ->
  NoDup ids
  /\ forall i, In i ids ->
               exists u, findUserById i us = Some u /\ IUser.isActive u = true.
Proof.
  intros Hnd Hlen. now apply as_many_users_as_ids.
Qed.

(** ** Creating a task *)

Lemma Routes_createTask_run
      (newId : ObjectId) (now : Date) (U : IUser.t) (body : TaskBody.t)
      (w : World) :
  Routes.createTask newId now (Some U) body w
  = let a := orElse (TaskBody.assignedTo body) [] in
    if Nat.eqb (length a) 0 then
      (res 400 (JMessage None
                  "AssignedTo is required and must be an array of user IDs"), w)
    else if negb (Nat.eqb (length (findUsersIn a (users w))) (length a)) then
      (res 400 (JMessage None "One or more assigned users do not exist"), w)
    else
      let d := Routes.newTask newId now U body in
      if negb (validTask d) then (res 500 serverError, w)
      else
        let p := PTask (populate (users w) d) in
        (res 201 (JTask None (populate (users w) d) None),
         mkWorld (users w) (tasks w ++ [d])
                 (emitted w
                  ++ map (fun r => mkEmit (Ref._id r) "taskAssigned" p)
                         (populateMany (users w) a)
                  ++ [mkEmit (IUser._id U) "taskCreated" p])).
Proof.
  unfold Routes.createTask. cbv zeta.
  unfold try_catch at 1. unfold bind at 1. unfold when_reply at 1.
  destruct (Nat.eqb (length (orElse (TaskBody.assignedTo body) [])) 0);
    [reflexivity|].
  unfold ret at 1. unfold bind at 1. unfold gets at 1.
  unfold bind at 1. unfold when_reply at 1.
  destruct (Nat.eqb (length (findUsersIn _ (users w))) _); cbn [negb];
    [|reflexivity].
  unfold ret at 1. unfold bind at 1. unfold saveNewTask.
  destruct (validTask _); cbn [negb]; [|reflexivity].
  unfold modify at 1. unfold bind at 1. unfold gets at 1.
  unfold bind at 1. rewrite forEach_emit.
  unfold bind, emit, modify, reply.
  cbv [push_emit set_tasks users tasks emitted populate Populated.assignedTo
       Routes.newTask ITask.assignedTo].
  rewrite <- !app_assoc. reflexivity.
Qed.

Lemma findTaskById_new (ts : list ITask.t) (d : ITask.t) :
  findTaskById (ITask._id d) ts = None ->
  findTaskById (ITask._id d) (ts ++ [d]) = Some d.
Proof.
  unfold findTaskById. induction ts as [|t ts IH]; simpl.
  - now rewrite String.eqb_refl.
  - destruct (String.eqb (ITask._id t) (ITask._id d)); [discriminate | exact IH].
Qed.

Lemma orElse_nonempty (o : option string) :
  negb (String.eqb (orElse o "") "") = true -> o = Some (orElse o "").
Proof.
  destruct o; [reflexivity | discriminate].
Qed.

(** C7. When [router.post('/')] answers 201 to its creator, an admin as the
    route stands behind [authorize('admin')], a [get] of the returned id by
    the creator, on the world the creation left, returns the very task the
    creation returned; its title, description, assignees and due date are
    those of the body, its priority is the body's or 'medium' when the body
    has none, its status is 'todo' when the body has none. *)
Theorem create_then_get_round_trip
        (newId : ObjectId) (now : Date) (U : IUser.t) (body : TaskBody.t)
        (w : World) :
  isAdmin U = true ->
  uniqueIds w ->
  ObjectId_isValid newId = true ->
  findTaskById newId (tasks w) = None ->
  code (fst (Routes.createTask newId now (Some U) body w)) = 201 ->
  let w' := snd (Routes.createTask newId now (Some U) body w) in
  exists T : Populated.t,
    fst (Routes.createTask newId now (Some U) body w)
    = res 201 (JTask None T None)
    /\ Routes.getTask (Some U) (ITask._id (Populated.doc T)) w'
       = (res 200 (JTask None T None), w')
    /\ TaskBody.title body = Some (ITask.title (Populated.doc T))
    /\ TaskBody.description body = Some (ITask.description (Populated.doc T))
    /\ ITask.priority (Populated.doc T)
       = orElse (TaskBody.priority body) "medium"
    /\ (TaskBody.status body = None -> ITask.status (Populated.doc T) = "todo")
    /\ (forall s, TaskBody.status body = Some s -> s <> "" ->
                  ITask.status (Populated.doc T) = s)
    /\ TaskBody.assignedTo body = Some (ITask.assignedTo (Populated.doc T))
    /\ map Ref._id (Populated.assignedTo T) = ITask.assignedTo (Populated.doc T)
    /\ ITask.dueDate (Populated.doc T) = TaskBody.dueDate body.
Proof.
  intros Hadmin Hunique Hvalid Hfresh.
  rewrite Routes_createTask_run. cbv zeta.
  destruct (Nat.eqb (length (orElse (TaskBody.assignedTo body) [])) 0) eqn:Hlen;
    [discriminate|].
  destruct (Nat.eqb (length (findUsersIn _ (users w))) _) eqn:Hall;
    cbn [negb]; [|discriminate].
  destruct (validTask (Routes.newTask newId now U body)) eqn:Hok;
    cbn [negb]; [|discriminate].
  intros _. cbn [fst snd].
  set (d := Routes.newTask newId now U body) in *.
  exists (populate (users w) d).
  apply Nat.eqb_eq in Hall.
  destruct (findUsersIn_all _ _ Hunique Hall) as [_ Hres].
  unfold validTask in Hok. rewrite !andb_true_iff in Hok.
  destruct Hok as [[[Htitle Hdesc] _] _].
  split; [reflexivity|]. split.
  - unfold Routes.getTask. run_handler.
    cbn [populate Populated.doc tasks users emitted].
    replace (ITask._id d) with newId by reflexivity.
    rewrite Hvalid. cbn [negb].
    pose proof (findTaskById_new (tasks w) d) as Hnew.
    change (ITask._id d) with newId in Hnew.
    cbn [tasks users]. rewrite (Hnew Hfresh).
    cbn [option_map populate Populated.assignedTo Populated.doc].
    now rewrite Hadmin.
  - cbn [populate Populated.doc Populated.assignedTo].
    repeat split.
    + exact (orElse_nonempty _ Htitle).
    + exact (orElse_nonempty _ Hdesc).
    + intros Hs. subst d. unfold Routes.newTask. now rewrite Hs.
    + intros s Hs Hne. subst d. unfold Routes.newTask. rewrite Hs.
      cbn. apply String.eqb_neq in Hne. now rewrite Hne.
    + subst d. cbn [Routes.newTask ITask.assignedTo].
      destruct (TaskBody.assignedTo body); [reflexivity | discriminate].
    + now apply populateMany_all.
Qed.

Lemma create_then_get_round_trip_witness :
  let body :=
    TaskBody.mk (Some "Ship") (Some "v1") None None (Some [hexId "b"]) None 0 in
  let created := Routes.createTask (hexId "3") 300%Z (Some alice) body office in
  exists T : Populated.t,
    fst created = res 201 (JTask None T None)
    /\ Routes.getTask (Some alice) (hexId "3") (snd created)
       = (res 200 (JTask None T None), snd created)
    /\ ITask.status (Populated.doc T) = "todo"
    /\ ITask.priority (Populated.doc T) = "medium"
    /\ map Ref._id (Populated.assignedTo T) = [hexId "b"].
Proof.
  intros body created.
  assert (Hu : uniqueIds office).
  { unfold uniqueIds. cbn.
    repeat (constructor;
            [cbn; intros H; repeat (destruct H as [H | H]; [discriminate H|]);
             exact H |]).
    constructor. }
  destruct (@create_then_get_round_trip (hexId "3") 300%Z alice body office
              eq_refl Hu eq_refl eq_refl eq_refl)
    as [T [H1 [H2 [_ [_ [H5 [H6 [_ [H8 [H9 _]]]]]]]]]].
  exists T.
  assert (Hid : ITask._id (Populated.doc T) = hexId "3").
  { unfold created in H1. rewrite Routes_createTask_run in H1.
    cbn in H1. injection H1 as <-. reflexivity. }
  rewrite Hid in H2.
  split; [exact H1|]. split; [exact H2|]. split; [exact (H6 eq_refl)|].
  split; [exact H5|].
  rewrite H9. cbn in H8. now injection H8 as <-.
Defined.

(** ** Listing tasks *)

Lemma insertByCreatedAt_perm (t : ITask.t) (ts : list ITask.t) :
  Permutation (insertByCreatedAt t ts) (t :: ts).
Proof.
  induction ts as [|t' ts IH]; simpl; [auto|].
  destruct (ITask.createdAt t' <=? ITask.createdAt t)%Z; [auto|].
  rewrite IH. apply perm_swap.
Qed.

Lemma sortByCreatedAtDesc_perm (ts : list ITask.t) :
  Permutation (sortByCreatedAtDesc ts) ts.
Proof.
  induction ts as [|t ts IH]; simpl; [auto|].
  rewrite insertByCreatedAt_perm. now constructor.
Qed.

Lemma insertByCreatedAt_sorted (t : ITask.t) (ts : list ITask.t) :
  Sorted newerFirst ts -> Sorted newerFirst (insertByCreatedAt t ts).
Proof.
  induction ts as [|t' ts IH]; simpl; intros Hs.
  - repeat constructor.
  - destruct (Z.leb_spec (ITask.createdAt t') (ITask.createdAt t)) as [Hle|Hlt].
    + constructor; [assumption|]. constructor. exact Hle.
    + apply Sorted_inv in Hs as [Hs Hhd].
      constructor; [auto|].
      destruct ts as [|t'' ts]; simpl.
      * constructor. unfold newerFirst. lia.
      * destruct (Z.leb_spec (ITask.createdAt t'') (ITask.createdAt t)).
        -- constructor. unfold newerFirst. lia.
        -- constructor. now apply HdRel_inv in Hhd.
Qed.

Lemma sortByCreatedAtDesc_sorted (ts : list ITask.t) :
  Sorted newerFirst (sortByCreatedAtDesc ts).
Proof.
  induction ts as [|t ts IH]; simpl; [constructor|].
  now apply insertByCreatedAt_sorted.
Qed.

Lemma Controller_visibleTo (U : IUser.t) (t : ITask.t) :
  Controller.visibleTo U t = true
  <-> In (IUser._id U) (ITask.assignedTo t) \/ IUser._id U = ITask.assignedBy t.
Proof.
  unfold Controller.visibleTo.
  rewrite orb_true_iff, mem_In, String.eqb_eq. intuition congruence.
Qed.

(** What the claim on listing asks, met by [taskController.getTasks]: an
    admin is given every task, another user exactly the tasks assigned to
    or created by that user, newest first in both cases. *)
Lemma Controller_getTasks_scope (U : IUser.t) (w : World) :
  exists ts : list ITask.t,
    Controller.getTasks (Some U) w
    = (res 200 (JTasks (Some true) (map (populate (users w)) ts)
                       (Some (length ts))), w)
    /\ Sorted newerFirst ts
    /\ (isAdmin U = true -> Permutation ts (tasks w))
    /\ (isAdmin U = false ->
        Permutation ts (filter (Controller.visibleTo U) (tasks w))
        /\ forall t, In t ts
                     <-> In t (tasks w)
                         /\ (In (IUser._id U) (ITask.assignedTo t)
                             \/ IUser._id U = ITask.assignedBy t)).
Proof.
  unfold Controller.getTasks. run_handler.
  destruct (isAdmin U) eqn:Hrole.
  - exists (sortByCreatedAtDesc (tasks w)).
    split; [reflexivity|]. split; [apply sortByCreatedAtDesc_sorted|].
    split; [intros _; apply sortByCreatedAtDesc_perm | discriminate].
  - exists (sortByCreatedAtDesc (filter (Controller.visibleTo U) (tasks w))).
    split; [reflexivity|]. split; [apply sortByCreatedAtDesc_sorted|].
    split; [discriminate|]. intros _.
    split; [apply sortByCreatedAtDesc_perm|].
    intros t. rewrite <- Controller_visibleTo, <- filter_In.
    split; apply Permutation_in;
      [|symmetry]; apply sortByCreatedAtDesc_perm.
Qed.

(** [router.get('/')] gives a user who is not an admin the tasks assigned
    to that user, and only those. *)
Lemma Routes_getTasks_scope (U : IUser.t) (w : World) :
  isAdmin U = false ->
  exists ts : list ITask.t,
    Routes.getTasks (Some U) w
    = (res 200 (JTasks None (map (populate (users w)) ts) None), w)
    /\ Sorted newerFirst ts
    /\ forall t, In t ts
                 <-> In t (tasks w) /\ In (IUser._id U) (ITask.assignedTo t).
Proof.
  intros Hrole. unfold Routes.getTasks. run_handler. rewrite Hrole.
  eexists. split; [reflexivity|]. split; [apply sortByCreatedAtDesc_sorted|].
  intros t. rewrite <- mem_In.
  rewrite <- (filter_In (fun t => mem (IUser._id U) (ITask.assignedTo t))).
  split; apply Permutation_in; [|symmetry]; apply sortByCreatedAtDesc_perm.
Qed.

(** C5 fails on [router.get('/')]: Erin, who is not an admin, created the
    task [docs] and is not among its assignees; the list she is given is
    empty, while [taskController.getTasks] gives her [docs]. *)
Theorem router_list_omits_created_tasks :
  isAdmin erin = false
  /\ In docs (tasks office)
  /\ ITask.assignedBy docs = IUser._id erin
  /\ Routes.getTasks (Some erin) office = (res 200 (JTasks None [] None), office)
  /\ Controller.getTasks (Some erin) office
     = (res 200 (JTasks (Some true) [populate (users office) docs] (Some 1)),
        office).
Proof.
  repeat split; try reflexivity. simpl; auto.
Qed.

(** ** Notifications of an update *)

(** What [taskController.updateTask] does once the task is found: the
    call of [canBeModifiedBy] throws, and the [catch] answers. *)
Lemma Controller_updateTask_found
      (now : Date) (U : IUser.t) (id : string) (body : TaskBody.t) (w : World)
      (T : ITask.t) :
  ObjectId_isValid id = true ->
  findTaskById id (tasks w) = Some T ->
  Controller.updateTask now (Some U) id body w
  = (res 500 Controller.serverError, w).
Proof.
  intros Hvalid Hfound.
  unfold Controller.updateTask, Controller.canBeModifiedBy. run_handler.
  rewrite (isValid_not_placeholder _ Hvalid), Hvalid. cbn [negb].
  now rewrite Hfound.
Qed.

(** C3 fails on [router.put('/:id')], which notifies the requester whatever
    the role, under the comment "Notify admin", and never the creator.
    Frank, an admin, moves Alice's task [ship] from Bob and Carol to Carol
    and Erin: Bob and Carol are told 'taskUpdated', Erin 'taskAssigned',
    Frank 'taskUpdated', Alice nothing.  Bob, an assignee, sets its status:
    Bob is told twice, Alice nothing. *)
Theorem router_update_does_not_notify_creator :
  let reassign :=
    TaskBody.mk None None None None (Some [hexId "c"; hexId "e"]) None 0 in
  let byFrank := Routes.updateTask 300%Z (Some frank) (hexId "1") reassign office in
  let byBob :=
    Routes.updateTask 300%Z (Some bob) (hexId "1") (statusOnly "done") office in
  ITask.assignedBy ship = hexId "a"
  /\ code (fst byFrank) = 200
  /\ deliveries (emitted (snd byFrank))
     = [(hexId "b", "taskUpdated"); (hexId "c", "taskUpdated");
        (hexId "e", "taskAssigned"); (hexId "f", "taskUpdated")]
  /\ code (fst byBob) = 200
  /\ deliveries (emitted (snd byBob))
     = [(hexId "b", "taskUpdated"); (hexId "c", "taskUpdated");
        (hexId "b", "taskUpdated")].
Proof.
  cbv zeta. repeat split; vm_compute; reflexivity.
Qed.

(** ** Assigning to inactive users *)

Lemma Controller_createTask_run
      (newId : ObjectId) (now : Date) (U : IUser.t) (body : TaskBody.t)
      (w : World) :
  Controller.createTask newId now (Some U) body w
  = let a := orElse (TaskBody.assignedTo body) [] in
    if negb (truthy (TaskBody.title body))
       || negb (truthy (TaskBody.description body)) then
      (res 400 (Controller.failure "Title and description are required"), w)
    else if Nat.eqb (length a) 0 then
      (res 400 (Controller.failure
                  "AssignedTo is required and must be an array of user IDs"), w)
    else if negb (Nat.eqb (length (findActiveUsersIn a (users w))) (length a)) then
      (res 400 (Controller.failure
                  "One or more assigned users do not exist or are inactive"), w)
    else
      let d := Controller.newTask newId now U body in
      if negb (validTask d) then (res 500 Controller.serverError, w)
      else
        let p := PTask (populate (users w) d) in
        (res 201 (JTask (Some true) (populate (users w) d)
                        (Some "Task created successfully")),
         mkWorld (users w) (tasks w ++ [d])
                 (emitted w
                  ++ map (fun r => mkEmit (Ref._id r) "taskAssigned" p)
                         (populateMany (users w) a)
                  ++ [mkEmit (IUser._id U) "taskCreated" p])).
Proof.
  unfold Controller.createTask. cbv zeta.
  unfold try_catch at 1. unfold bind at 1. unfold when_reply at 1.
  destruct (negb (truthy (TaskBody.title body))
            || negb (truthy (TaskBody.description body))); [reflexivity|].
  unfold ret at 1. unfold bind at 1. unfold when_reply at 1.
  destruct (Nat.eqb (length (orElse (TaskBody.assignedTo body) [])) 0);
    [reflexivity|].
  unfold ret at 1. unfold bind at 1. unfold gets at 1.
  unfold bind at 1. unfold when_reply at 1.
  destruct (Nat.eqb (length (findActiveUsersIn _ (users w))) _); cbn [negb];
    [|reflexivity].
  unfold ret at 1. unfold bind at 1. unfold saveNewTask.
  destruct (validTask _); cbn [negb]; [|reflexivity].
  unfold modify at 1. unfold bind at 1. unfold gets at 1.
  unfold bind at 1. rewrite forEach_emit.
  unfold bind, emit, modify, reply.
  cbv [push_emit set_tasks users tasks emitted populate Populated.assignedTo
       Controller.newTask ITask.assignedTo].
  rewrite <- !app_assoc. reflexivity.
Qed.

(** What the claim on inactive assignees asks, met by
    [taskController.createTask]: if an id of [assignedTo] names a stored
    user who is not active, the answer is 400 and nothing is written. *)
Lemma Controller_create_refuses_inactive
      (newId : ObjectId) (now : Date) (U : IUser.t) (body : TaskBody.t)
      (w : World) (ids : list ObjectId) (i : ObjectId) (u : IUser.t) :
  uniqueIds w ->
  TaskBody.assignedTo body = Some ids ->
  In i ids ->
  findUserById i (users w) = Some u ->
  IUser.isActive u = false ->
  code (fst (Controller.createTask newId now (Some U) body w)) = 400
  /\ snd (Controller.createTask newId now (Some U) body w) = w.
Proof.
  intros Hunique Hids Hi Hu Hinactive.
  rewrite Controller_createTask_run. cbv zeta. rewrite Hids. cbn [orElse].
  destruct (_ || _); [now split|].
  destruct (Nat.eqb (length ids) 0); [now split|].
  destruct (Nat.eqb (length (findActiveUsersIn ids (users w))) (length ids))
           eqn:Hall; cbn [negb]; [|now split].
  exfalso. apply Nat.eqb_eq in Hall.
  destruct (findActiveUsersIn_all _ _ Hunique Hall) as [_ Hres].
  destruct (Hres i Hi) as [u' [Hu' Hactive]]. congruence.
Qed.

(** C6 fails on [router.post('/')], whose query for the assigned users has
    no [isActive] condition.  Alice, an admin, assigns a new task to Dave,
    whose account is stored and inactive: the route answers 201 and the
    task is written.  [taskController.createTask] answers 400 to the same
    request and writes nothing. *)
Theorem router_create_accepts_inactive_assignee :
  let body :=
    TaskBody.mk (Some "Ship") (Some "v1") None None (Some [hexId "d"]) None 0 in
  let posted := Routes.POST_task (hexId "3") 300%Z (Some aliceToken) body office in
  findUserById (hexId "d") (users office) = Some dave
  /\ IUser.isActive dave = false
  /\ code (fst posted) = 201
  /\ tasks (snd posted) = [ship; docs; Routes.newTask (hexId "3") 300%Z alice body]
  /\ Controller.createTask (hexId "3") 300%Z (Some alice) body office
     = (res 400 (Controller.failure
                   "One or more assigned users do not exist or are inactive"),
        office).
Proof.
  cbv zeta. repeat split; vm_compute; reflexivity.
Qed.

(** ** Deleting a task *)

Lemma find_nothing (A : Type) (f : A -> bool) (l : list A) :
  (forall x, In x l -> f x = false) -> find f l = None.
Proof.
  induction l as [|a l IH]; simpl; intros H; [reflexivity|].
  rewrite (H a) by auto. apply IH. auto.
Qed.

Lemma deleteTaskById_gone (id : ObjectId) (ts : list ITask.t) :
  NoDup (map ITask._id ts) -> findTaskById id (deleteTaskById id ts) = None.
Proof.
  unfold findTaskById.
  induction ts as [|t ts IH]; simpl; intros Hnd; [reflexivity|].
  inversion Hnd as [|x xs Hnotin Hnodup]; subst.
  destruct (String.eqb_spec (ITask._id t) id) as [E|E].
  - apply find_nothing. intros t' Hin. apply String.eqb_neq.
    intros E'. apply Hnotin. rewrite E, <- E'. now apply in_map.
  - simpl. apply String.eqb_neq in E. rewrite E. now apply IH.
Qed.

Lemma Controller_deleteTask_found (U : IUser.t) (id : string) (w : World)
      (T : ITask.t) :
  ObjectId_isValid id = true ->
  findTaskById id (tasks w) = Some T ->
  Controller.deleteTask (Some U) id w
  = if negb (isAdmin U)
       && negb (String.eqb (ITask.assignedBy T) (IUser._id U)) then
      (res 403 (Controller.failure "Access denied"), w)
    else
      let p := PDeleted id (Some "Task has been deleted") in
      (res 200 (JMessage (Some true) "Task deleted successfully"),
       mkWorld (users w) (deleteTaskById id (tasks w))
               (emitted w
                ++ map (fun i => mkEmit i "taskDeleted" p) (ITask.assignedTo T)
                ++ [mkEmit (ITask.assignedBy T) "taskDeleted" p]
                ++ (if isAdmin U
                    then [mkEmit (IUser._id U) "taskDeleted" p] else []))).
Proof.
  intros Hvalid Hfound.
  unfold Controller.deleteTask.
  unfold try_catch, bind at 1. unfold Task_findById. rewrite Hvalid.
  unfold gets. rewrite Hfound. cbv zeta.
  unfold bind at 1. unfold when_reply.
  destruct (negb (isAdmin U) && negb (_ =? _)); [reflexivity|].
  unfold ret at 1. unfold bind at 1. unfold modify at 1.
  unfold bind at 1. rewrite forEach_emit.
  unfold bind, emit, modify, ret, reply.
  cbv [push_emit set_tasks users tasks emitted].
  destruct (isAdmin U); rewrite <- !app_assoc; reflexivity.
Qed.

(** What the claim on deletion asks, met by [taskController.deleteTask]: a
    creator who is not an admin deletes the task; a user who is neither
    admin nor creator gets 403 and the task stays. *)
Lemma Controller_delete_by_creator_only
      (U V : IUser.t) (T : ITask.t) (w : World) :
  uniqueTaskIds w ->
  ObjectId_isValid (ITask._id T) = true ->
  findTaskById (ITask._id T) (tasks w) = Some T ->
  nonAdmin U -> IUser._id U = ITask.assignedBy T ->
  nonAdmin V -> IUser._id V <> ITask.assignedBy T ->
  (fst (Controller.deleteTask (Some U) (ITask._id T) w)
   = res 200 (JMessage (Some true) "Task deleted successfully")
   /\ findTaskById (ITask._id T)
                   (tasks (snd (Controller.deleteTask (Some U) (ITask._id T) w)))
      = None)
  /\ Controller.deleteTask (Some V) (ITask._id T) w
     = (res 403 (Controller.failure "Access denied"), w).
Proof.
  intros Hunique Hvalid Hfound HU HcU HV HcV.
  apply nonAdmin_isAdmin in HU, HV.
  assert (HeqU : String.eqb (ITask.assignedBy T) (IUser._id U) = true)
    by (apply String.eqb_eq; congruence).
  assert (HneV : String.eqb (ITask.assignedBy T) (IUser._id V) = false)
    by (apply String.eqb_neq; congruence).
  rewrite !(Controller_deleteTask_found _ _ _ _ Hvalid Hfound).
  rewrite HU, HV, HeqU, HneV. cbn [negb andb fst snd tasks].
  repeat split. now apply deleteTaskById_gone.
Qed.

Lemma Routes_deleteTask_run (U : IUser.t) (id : string) (w : World) :
  Routes.deleteTask (Some U) id w
  = if ObjectId_isValid id then
      match findTaskById id (tasks w) with
      | None => (res 404 (JMessage None "Task not found"), w)
      | Some T =>
          (res 200 (JMessage None "Task deleted successfully"),
           mkWorld (users w) (deleteTaskById id (tasks w))
                   (emitted w
                    ++ map (fun i => mkEmit i "taskDeleted" (PDeleted id None))
                           (ITask.assignedTo T)
                    ++ [mkEmit (IUser._id U) "taskDeleted" (PDeleted id None)]))
      end
    else (res 500 serverError, w).
Proof.
  unfold Routes.deleteTask.
  unfold try_catch, bind at 1. unfold Task_findById.
  destruct (ObjectId_isValid id); [|reflexivity].
  unfold gets. destruct (findTaskById id (tasks w)) as [T|]; [|reflexivity].
  unfold bind at 1. unfold modify at 1.
  unfold bind at 1. rewrite forEach_emit.
  unfold bind, emit, modify, reply.
  cbv [push_emit set_tasks users tasks emitted].
  rewrite <- !app_assoc. reflexivity.
Qed.

(** [router.delete('/:id')] itself never looks at the creator: past the
    middleware, two users are answered alike. *)
Lemma Routes_deleteTask_any_user (U V : IUser.t) (id : string) (w : World) :
  fst (Routes.deleteTask (Some U) id w) = fst (Routes.deleteTask (Some V) id w)
  /\ tasks (snd (Routes.deleteTask (Some U) id w))
     = tasks (snd (Routes.deleteTask (Some V) id w)).
Proof.
  rewrite !Routes_deleteTask_run.
  destruct (ObjectId_isValid id); [|now split].
  destruct (findTaskById id (tasks w)); now split.
Qed.

(** Behind [authorize('admin')], [router.delete('/:id')] refuses every
    authenticated user who is not an admin, creator or not, and leaves the
    world as it was. *)
Lemma Routes_DELETE_refuses_non_admin
      (token : Token.t) (U : IUser.t) (id : string) (w : World) :
  Token.secret token = JWT_SECRET ->
  findUserById (Token.id token) (users w) = Some U ->
  nonAdmin U ->
  code (fst (Routes.DELETE_task (Some token) id w)) = 403
  /\ snd (Routes.DELETE_task (Some token) id w) = w.
Proof.
  intros Hsecret HU Hrole.
  assert (Hgate : mem (IUser.role U) ["admin"] = false).
  { apply mem_false. intros [H | []]. now apply Hrole. }
  unfold Routes.DELETE_task, express, try_catch, protect.
  rewrite Hsecret, String.eqb_refl.
  unfold bind, gets. rewrite HU. unfold authorize. rewrite Hgate.
  now split.
Qed.

(** C2 fails on [router.delete('/:id')], which stands behind
    [authorize('admin')].  Erin, who is not an admin, created the task
    [docs]: her request to delete it is answered 403 and the task stays.
    [taskController.deleteTask] deletes it for her. *)
Theorem router_delete_refuses_creator :
  isAdmin erin = false
  /\ ITask.assignedBy docs = IUser._id erin
  /\ code (fst (Routes.DELETE_task (Some erinToken) (hexId "2") office)) = 403
  /\ snd (Routes.DELETE_task (Some erinToken) (hexId "2") office) = office
  /\ fst (Controller.deleteTask (Some erin) (hexId "2") office)
     = res 200 (JMessage (Some true) "Task deleted successfully")
  /\ tasks (snd (Controller.deleteTask (Some erin) (hexId "2") office)) = [ship].
Proof.
  repeat split; vm_compute; reflexivity.
Qed.

(** * Further properties of the handlers *)

(** ** Creating a task, continued *)

Lemma office_uniqueIds : uniqueIds office.
Proof.
  unfold uniqueIds. cbn.
  repeat (constructor;
          [cbn; intros H; repeat (destruct H as [H | H]; [discriminate H|]);
           exact H |]).
  constructor.
Qed.

(** X1. When [router.post('/')] answers 201, the new task is appended to the
    collection, the users are untouched, and the events sent are
    'taskAssigned' to each id of [assignedTo], in the order of the body,
    then 'taskCreated' to the requester, each carrying the task of the
    answer. *)
Theorem Routes_create_stores_and_notifies
        (newId : ObjectId) (now : Date) (U : IUser.t) (body : TaskBody.t)
        (w : World) :
  uniqueIds w ->
  code (fst (Routes.createTask newId now (Some U) body w)) = 201 ->
  let w' := snd (Routes.createTask newId now (Some U) body w) in
  exists T : Populated.t,
    fst (Routes.createTask newId now (Some U) body w)
    = res 201 (JTask None T None)
    /\ tasks w' = tasks w ++ [Populated.doc T]
    /\ users w' = users w
    /\ emitted w'
       = emitted w
         ++ taskAssignedTo (PTask T) (orElse (TaskBody.assignedTo body) [])
         ++ [mkEmit (IUser._id U) "taskCreated" (PTask T)].
Proof.
  intros Hunique. rewrite Routes_createTask_run. cbv zeta.
  destruct (Nat.eqb (length (orElse (TaskBody.assignedTo body) [])) 0);
    [discriminate|].
  destruct (Nat.eqb (length (findUsersIn _ (users w))) _) eqn:Hall;
    cbn [negb]; [|discriminate].
  destruct (validTask _); cbn [negb]; [|discriminate].
  intros _. cbn [fst snd tasks users emitted].
  eexists. split; [reflexivity|]. split; [reflexivity|]. split; [reflexivity|].
  apply Nat.eqb_eq in Hall.
  destruct (findUsersIn_all _ _ Hunique Hall) as [_ Hres].
  unfold taskAssignedTo.
  rewrite <- (populateMany_all (users w) _ Hres) at 2.
  now rewrite map_map.
Qed.

Lemma Routes_create_stores_and_notifies_witness :
  let body :=
    TaskBody.mk (Some "Ship") (Some "v1") None None
                (Some [hexId "c"; hexId "b"]) None 0 in
  let w' := snd (Routes.createTask (hexId "3") 300%Z (Some alice) body office) in
  length (tasks w') = 3
  /\ deliveries (emitted w')
     = [(hexId "c", "taskAssigned"); (hexId "b", "taskAssigned");
        (hexId "a", "taskCreated")].
Proof.
  intros body w'.
  destruct (Routes_create_stores_and_notifies
              (hexId "3") 300%Z alice body office office_uniqueIds eq_refl)
    as [T [_ [Ht [_ He]]]].
  fold w' in Ht, He. rewrite Ht, He. split; reflexivity.
Defined.

(** X2. A body without [assignedTo], or with an empty one, is answered 400
    by [router.post('/')] and by [taskController.createTask]; nothing is
    written and nothing is sent. *)
Theorem create_needs_assignees
        (newId : ObjectId) (now : Date) (U : IUser.t) (body : TaskBody.t)
        (w : World) :
  TaskBody.assignedTo body = None \/ TaskBody.assignedTo body = Some [] ->
  Routes.createTask newId now (Some U) body w
  = (res 400 (JMessage None
                "AssignedTo is required and must be an array of user IDs"), w)
  /\ code (fst (Controller.createTask newId now (Some U) body w)) = 400
  /\ snd (Controller.createTask newId now (Some U) body w) = w.
Proof.
  intros H. rewrite Routes_createTask_run, Controller_createTask_run. cbv zeta.
  assert (E : orElse (TaskBody.assignedTo body) [] = [])
    by (destruct H as [-> | ->]; reflexivity).
  rewrite E. cbn [length Nat.eqb].
  split; [reflexivity|]. destruct (_ || _); now split.
Qed.

Lemma create_needs_assignees_witness :
  Routes.createTask (hexId "3") 300%Z (Some alice)
                    (TaskBody.mk (Some "Ship") (Some "v1") None None None None 0)
                    office
  = (res 400 (JMessage None
                "AssignedTo is required and must be an array of user IDs"),
     office).
Proof.
  exact (proj1 (create_needs_assignees
                  (hexId "3") 300%Z alice
                  (TaskBody.mk (Some "Ship") (Some "v1") None None None None 0)
                  office (or_introl eq_refl))).
Defined.

(** X3. A body whose title or description is absent or empty, with
    assignees that all resolve: [taskController.createTask] answers 400
    before it reads the users, while [router.post('/')] has no such test,
    lets [save] throw on [required] and answers 500.  Neither writes. *)
Theorem create_without_title_or_description
        (newId : ObjectId) (now : Date) (U : IUser.t) (body : TaskBody.t)
        (w : World) (ids : list ObjectId) :
  truthy (TaskBody.title body) = false
  \/ truthy (TaskBody.description body) = false ->
  TaskBody.assignedTo body = Some ids ->
  ids <> [] ->
  length (findUsersIn ids (users w)) = length ids ->
  Controller.createTask newId now (Some U) body w
  = (res 400 (Controller.failure "Title and description are required"), w)
  /\ Routes.createTask newId now (Some U) body w = (res 500 serverError, w).
Proof.
  intros Hmissing Hids Hne Hall. split.
  - rewrite Controller_createTask_run. cbv zeta.
    destruct Hmissing as [-> | ->]; cbn [negb orb]; [reflexivity|].
    now rewrite orb_true_r.
  - rewrite Routes_createTask_run. cbv zeta. rewrite Hids. cbn [orElse].
    destruct ids as [|i ids]; [contradiction|]. cbn [length Nat.eqb].
    cbn [length] in Hall. rewrite Hall, Nat.eqb_refl. cbn [negb].
    assert (Hbad : validTask (Routes.newTask newId now U body) = false).
    { unfold validTask, Routes.newTask. cbn [ITask.title ITask.description].
      destruct Hmissing as [Hm | Hm]; unfold truthy in Hm.
      - destruct (TaskBody.title body) as [s|]; cbn.
        + apply negb_false_iff in Hm. now rewrite Hm.
        + reflexivity.
      - destruct (TaskBody.description body) as [s|]; cbn.
        + apply negb_false_iff in Hm. rewrite Hm. cbn.
          now rewrite andb_false_r.
        + now rewrite andb_false_r. }
    now rewrite Hbad.
Qed.

Lemma create_without_title_or_description_witness :
  let body := TaskBody.mk None (Some "v1") None None (Some [hexId "b"]) None 0 in
  Controller.createTask (hexId "3") 300%Z (Some alice) body office
  = (res 400 (Controller.failure "Title and description are required"), office)
  /\ Routes.createTask (hexId "3") 300%Z (Some alice) body office
     = (res 500 serverError, office).
Proof.
  intros body.
  exact (create_without_title_or_description
           (hexId "3") 300%Z alice body office [hexId "b"]
           (or_introl eq_refl) eq_refl ltac:(discriminate) eq_refl).
Defined.

(** ** Updating a task, continued *)

Lemma replaceTask_found (d T : ITask.t) (ts : list ITask.t) :
  findTaskById (ITask._id d) ts = Some T ->
  findTaskById (ITask._id d) (replaceTask d ts) = Some d.
Proof.
  unfold findTaskById. induction ts as [|t ts IH]; simpl; [discriminate|].
  destruct (String.eqb (ITask._id t) (ITask._id d)) eqn:E; simpl.
  - now rewrite String.eqb_refl.
  - now rewrite E.
Qed.

Lemma replaceTask_other (d : ITask.t) (id : ObjectId) (ts : list ITask.t) :
  id <> ITask._id d ->
  findTaskById id (replaceTask d ts) = findTaskById id ts.
Proof.
  intros Hne. unfold findTaskById.
  induction ts as [|t ts IH]; simpl; [reflexivity|].
  destruct (String.eqb_spec (ITask._id t) (ITask._id d)) as [E|E]; simpl.
  - apply String.eqb_neq in Hne. rewrite String.eqb_sym in Hne.
    rewrite Hne. rewrite E. now rewrite Hne.
  - destruct (String.eqb (ITask._id t) id); [reflexivity | exact IH].
Qed.

Lemma replaceTask_ids (d : ITask.t) (ts : list ITask.t) :
  map ITask._id (replaceTask d ts) = map ITask._id ts.
Proof.
  induction ts as [|t ts IH]; simpl; [reflexivity|].
  destruct (String.eqb_spec (ITask._id t) (ITask._id d)) as [E|E]; simpl.
  - now rewrite E.
  - now rewrite IH.
Qed.

Lemma sameIds_eq (a b : list ObjectId) : sameIds a b = true -> a = b.
Proof.
  revert b. induction a as [|x a IH]; intros [|y b]; simpl; try discriminate.
  - reflexivity.
  - rewrite andb_true_iff, String.eqb_eq. intros [-> H]. now rewrite (IH b H).
Qed.

Lemma sameDate_eq (a b : option Date) : sameDate a b = true -> a = b.
Proof.
  destruct a, b; simpl; try discriminate; [|reflexivity].
  rewrite Z.eqb_eq. now intros ->.
Qed.

Lemma timestamps_fields (now : Date) (T d0 : ITask.t) :
  let d := timestamps now T d0 in
  ITask._id d = ITask._id d0
  /\ ITask.title d = ITask.title d0
  /\ ITask.description d = ITask.description d0
  /\ ITask.status d = ITask.status d0
  /\ ITask.priority d = ITask.priority d0
  /\ ITask.assignedTo d = ITask.assignedTo d0
  /\ ITask.assignedBy d = ITask.assignedBy d0
  /\ ITask.dueDate d = ITask.dueDate d0
  /\ ITask.createdAt d = ITask.createdAt d0
  /\ isModified T d = isModified T d0
  /\ (isModified T d0 = true -> ITask.updatedAt d = now)
  /\ (isModified T d0 = false -> d = d0).
Proof.
  unfold timestamps. destruct (isModified T d0) eqn:Hm; cbn.
  - repeat split; try reflexivity; try assumption. discriminate.
  - repeat split; try reflexivity; try assumption. discriminate.
Qed.

(** X4. When [router.put('/:id')] answers 200, the task stored under the id
    keeps its id, creator and creation date; each of title, description,
    status, priority, assignees and due date is the one of the body where
    the body has it and the former one where it has not; [updatedAt]
    becomes the time of the request if one of these six changed, and the
    stored task is the former one, [updatedAt] included, if none did;
    every other task and the users are as before. *)
Theorem Routes_update_writes_only_body_fields
        (now : Date) (U : IUser.t) (body : TaskBody.t) (w : World) (T : ITask.t) :
  ObjectId_isValid (ITask._id T) = true ->
  findTaskById (ITask._id T) (tasks w) = Some T ->
  code (fst (Routes.updateTask now (Some U) (ITask._id T) body w)) = 200 ->
  let w' := snd (Routes.updateTask now (Some U) (ITask._id T) body w) in
  exists d : ITask.t,
    findTaskById (ITask._id T) (tasks w') = Some d
    /\ ITask._id d = ITask._id T
    /\ ITask.assignedBy d = ITask.assignedBy T
    /\ ITask.createdAt d = ITask.createdAt T
    /\ ITask.title d = orElse (TaskBody.title body) (ITask.title T)
    /\ ITask.description d
       = orElse (TaskBody.description body) (ITask.description T)
    /\ ITask.status d = orElse (TaskBody.status body) (ITask.status T)
    /\ ITask.priority d = orElse (TaskBody.priority body) (ITask.priority T)
    /\ ITask.assignedTo d
       = orElse (TaskBody.assignedTo body) (ITask.assignedTo T)
    /\ ITask.dueDate d
       = match TaskBody.dueDate body with
         | Some x => Some x
         | None => ITask.dueDate T
         end
    /\ (isModified T d = true -> ITask.updatedAt d = now)
    /\ (isModified T d = false -> d = T)
    /\ (forall id, id <> ITask._id T ->
                   findTaskById id (tasks w') = findTaskById id (tasks w))
    /\ users w' = users w.
Proof.
  intros Hvalid Hfound.
  rewrite (Routes_updateTask_found now U _ body w T Hvalid Hfound).
  destruct (negb (Routes.canWrite U T body)); [discriminate|].
  destruct (negb (resolves findUsersIn body (users w))); [discriminate|].
  cbv zeta. destruct (negb (validTask _)); [discriminate|].
  intros _. cbn [snd tasks users].
  set (d0 := match TaskBody.assignedTo body with
             | Some a => set_assignedTo a (assignFields (fun x => x) body T)
             | None => assignFields (fun x => x) body T
             end).
  change (updatedDoc (fun x => x) now body T) with (timestamps now T d0).
  destruct (timestamps_fields now T d0)
    as [Hid [H1 [H2 [H3 [H4 [H5 [H6 [H7 [H8 [Hm [Hyes Hno]]]]]]]]]]].
  set (d := timestamps now T d0) in *.
  assert (Hid0 : ITask._id d0 = ITask._id T)
    by (unfold d0; now destruct (TaskBody.assignedTo body)).
  exists d. split.
  { rewrite <- Hid0, <- Hid. apply (replaceTask_found d T).
    now rewrite Hid, Hid0. }
  rewrite Hid, H1, H2, H3, H4, H5, H6, H7, H8, Hm.
  assert (Hsame : isModified T d0 = false -> d0 = T).
  { unfold isModified. rewrite negb_false_iff, !andb_true_iff, !String.eqb_eq.
    intros [[[[[E1 E2] E3] E4] E5] E6].
    apply sameIds_eq in E5. apply sameDate_eq in E6.
    assert (E7 : ITask.assignedBy d0 = ITask.assignedBy T)
      by (unfold d0; now destruct (TaskBody.assignedTo body)).
    assert (E8 : ITask.createdAt d0 = ITask.createdAt T)
      by (unfold d0; now destruct (TaskBody.assignedTo body)).
    assert (E9 : ITask.updatedAt d0 = ITask.updatedAt T)
      by (unfold d0; now destruct (TaskBody.assignedTo body)).
    destruct d0, T. cbn in *. congruence. }
  assert (Hother : forall id, id <> ITask._id T ->
                              findTaskById id (replaceTask d (tasks w))
                              = findTaskById id (tasks w)).
  { intros id Hne. apply replaceTask_other. now rewrite Hid, Hid0. }
  split; [exact Hid0|].
  split; [unfold d0; now destruct (TaskBody.assignedTo body)|].
  split; [unfold d0; now destruct (TaskBody.assignedTo body)|].
  split; [unfold d0, assignFields;
          now destruct (TaskBody.assignedTo body), (TaskBody.title body)|].
  split; [unfold d0, assignFields;
          now destruct (TaskBody.assignedTo body), (TaskBody.description body)|].
  split; [unfold d0; now destruct (TaskBody.assignedTo body)|].
  split; [unfold d0; now destruct (TaskBody.assignedTo body)|].
  split; [unfold d0; now destruct (TaskBody.assignedTo body)|].
  split; [unfold d0; now destruct (TaskBody.assignedTo body)|].
  split; [exact Hyes|].
  split; [intros Hnot; rewrite (Hno Hnot); exact (Hsame Hnot)|].
  split; [exact Hother | reflexivity].
Qed.

Lemma Routes_update_writes_only_body_fields_witness :
  let body := TaskBody.mk None None None (Some "high") None None 0 in
  let same := TaskBody.mk (Some "Ship") None None None None None 0 in
  let w' := snd (Routes.updateTask 300%Z (Some alice) (hexId "1") body office) in
  (exists d : ITask.t,
      findTaskById (hexId "1") (tasks w') = Some d
      /\ ITask.priority d = "high"
      /\ ITask.title d = "Ship"
      /\ ITask.updatedAt d = 300%Z
      /\ findTaskById (hexId "2") (tasks w') = Some docs)
  /\ findTaskById (hexId "1")
                  (tasks (snd (Routes.updateTask 300%Z (Some alice) (hexId "1")
                                                 same office)))
     = Some ship.
Proof.
  intros body same w'. split.
  - destruct (Routes_update_writes_only_body_fields
                300%Z alice body office ship eq_refl eq_refl eq_refl)
      as [d [H1 [_ [_ [_ [H5 [H6 [H7 [H8 [H9 [H10 [H11 [_ [H13 _]]]]]]]]]]]]]].
    exists d. split; [exact H1|]. split; [exact H8|]. split; [exact H5|].
    split; [|exact (H13 (hexId "2") ltac:(discriminate))].
    apply H11. unfold isModified. rewrite H5, H6, H7, H8, H9, H10. reflexivity.
  - destruct (Routes_update_writes_only_body_fields
                300%Z alice same office ship eq_refl eq_refl eq_refl)
      as [d [H1 [_ [_ [_ [H5 [H6 [H7 [H8 [H9 [H10 [_ [H12 _]]]]]]]]]]]]].
    change (hexId "1") with (ITask._id ship). rewrite H1. f_equal. apply H12.
    unfold isModified. rewrite H5, H6, H7, H8, H9, H10. reflexivity.
Defined.

(** X5. For a user who is neither admin nor creator of the task,
    [router.put('/:id')] lets through only an assignee whose body has a
    non-empty status and no other key, counting keys the handler does not
    read; every other request of such a user is answered 403 and changes
    nothing. *)
Theorem Routes_update_refuses_others
        (now : Date) (U : IUser.t) (body : TaskBody.t) (w : World) (T : ITask.t) :
  ObjectId_isValid (ITask._id T) = true ->
  findTaskById (ITask._id T) (tasks w) = Some T ->
  nonAdmin U ->
  IUser._id U <> ITask.assignedBy T ->
  ~ (In (IUser._id U) (ITask.assignedTo T)
     /\ truthy (TaskBody.status body) = true
     /\ TaskBody.keys body = 1) ->
  Routes.updateTask now (Some U) (ITask._id T) body w
  = (res 403 (JMessage None "Access denied"), w).
Proof.
  intros Hvalid Hfound Hrole Hcreator Hnot.
  rewrite (Routes_updateTask_found now U _ body w T Hvalid Hfound).
  apply nonAdmin_isAdmin in Hrole.
  assert (Hneq : String.eqb (ITask.assignedBy T) (IUser._id U) = false)
    by (apply String.eqb_neq; congruence).
  assert (Hw : Routes.canWrite U T body = false).
  { unfold Routes.canWrite. rewrite Hrole, Hneq. cbn [negb andb].
    destruct (truthy (TaskBody.status body)) eqn:Hs; [|reflexivity].
    destruct (Nat.eqb_spec (TaskBody.keys body) 1) as [Hk|Hk]; [|reflexivity].
    cbn [andb]. apply mem_false. intros Hin. apply Hnot. auto. }
  now rewrite Hw.
Qed.

Lemma Routes_update_refuses_others_witness :
  Routes.updateTask 300%Z (Some bob) (hexId "1")
                    (TaskBody.mk None None (Some "done") None None None 1) office
  = (res 403 (JMessage None "Access denied"), office)
  /\ Routes.updateTask 300%Z (Some erin) (hexId "1") (statusOnly "done") office
     = (res 403 (JMessage None "Access denied"), office).
Proof.
  split.
  - apply (Routes_update_refuses_others
             300%Z bob (TaskBody.mk None None (Some "done") None None None 1)
             office ship eq_refl eq_refl);
      [discriminate | discriminate |].
    intros [_ [_ H]]. discriminate H.
  - apply (Routes_update_refuses_others
             300%Z erin (statusOnly "done") office ship eq_refl eq_refl);
      [discriminate | discriminate |].
    intros [H _]. cbn in H. repeat (destruct H as [H | H]; [discriminate H|]).
    exact H.
Defined.

Lemma Controller_updateTask_failure
      (now : Date) (user : option IUser.t) (id : string) (body : TaskBody.t)
      (w : World) :
  code (fst (Controller.updateTask now user id body w)) <> 200
  /\ snd (Controller.updateTask now user id body w) = w.
Proof.
  destruct user as [U|]; [|split; [discriminate | reflexivity]].
  destruct (ObjectId_isValid id) eqn:Hvalid.
  - destruct (findTaskById id (tasks w)) as [T|] eqn:Hfound.
    + rewrite (Controller_updateTask_found now U _ body w T Hvalid Hfound).
      split; [discriminate | reflexivity].
    + unfold Controller.updateTask. run_handler.
      rewrite (isValid_not_placeholder _ Hvalid), Hvalid. cbn.
      rewrite Hfound. split; [discriminate | reflexivity].
  - unfold Controller.updateTask. run_handler. rewrite Hvalid.
    destruct (_ || _); split; try discriminate; reflexivity.
Qed.

(** X6. As the sources stand, [taskController.updateTask] never updates:
    its permission check calls [task.canBeModifiedBy], which no version of
    models/Task.ts declares, so for a stored task it answers 500 whoever
    asks and whatever the body; no request is answered 200, and none
    changes the tasks, the users or the events. *)
Theorem Controller_update_never_succeeds
        (now : Date) (user : option IUser.t) (id : string) (body : TaskBody.t)
        (w : World) :
  code (fst (Controller.updateTask now user id body w)) <> 200
  /\ snd (Controller.updateTask now user id body w) = w
  /\ (forall (U : IUser.t) (T : ITask.t),
         user = Some U ->
         ObjectId_isValid id = true ->
         findTaskById id (tasks w) = Some T ->
         fst (Controller.updateTask now user id body w)
         = res 500 Controller.serverError).
Proof.
  destruct (Controller_updateTask_failure now user id body w) as [H1 H2].
  split; [exact H1|]. split; [exact H2|].
  intros U T -> Hvalid Hfound.
  now rewrite (Controller_updateTask_found now U _ body w T Hvalid Hfound).
Qed.

(** ** Reading, continued *)

(** X8. The four reading handlers never write: whatever the requester and
    the id, the collections and the events after [get] and after the
    listing are those before. *)
Theorem reading_changes_nothing
        (user : option IUser.t) (id : string) (w : World) :
  snd (Routes.getTask user id w) = w
  /\ snd (Routes.getTasks user w) = w
  /\ snd (Controller.getTask user id w) = w
  /\ snd (Controller.getTasks user w) = w.
Proof.
  repeat split.
  - unfold Routes.getTask. run_handler.
    destruct (ObjectId_isValid id); cbn [negb]; [|reflexivity].
    destruct (findTaskById id (tasks w)); cbn [option_map]; [|reflexivity].
    destruct user as [U|]; [|reflexivity].
    destruct (isAdmin U); [reflexivity|].
    destruct (mem _ _); [reflexivity|]. unfold populatedToString.
    destruct (Populated.assignedBy _) as [r|]; [|reflexivity].
    unfold ret. now destruct (String.eqb (documentString r) (IUser._id U)).
  - unfold Routes.getTasks. run_handler.
    destruct user as [U|]; [|reflexivity]. now destruct (isAdmin U).
  - unfold Controller.getTask. run_handler.
    destruct (ObjectId_isValid id); cbn [negb]; [|reflexivity].
    destruct (findTaskById id (tasks w)); cbn [option_map]; [|reflexivity].
    destruct user as [U|]; [|reflexivity].
    destruct (isAdmin U); [reflexivity|].
    destruct (mem _ _); [reflexivity|]. unfold populatedToString.
    destruct (Populated.assignedBy _) as [r|]; [|reflexivity].
    unfold ret. now destruct (String.eqb (documentString r) (IUser._id U)).
  - unfold Controller.getTasks. run_handler.
    destruct user as [U|]; [|reflexivity]. now destruct (isAdmin U).
Qed.

(** ** Deleting, continued *)

Lemma deleteTaskById_other (id id' : ObjectId) (ts : list ITask.t) :
  id' <> id ->
  findTaskById id' (deleteTaskById id ts) = findTaskById id' ts.
Proof.
  intros Hne. unfold findTaskById.
  induction ts as [|t ts IH]; simpl; [reflexivity|].
  destruct (String.eqb_spec (ITask._id t) id) as [E|E]; simpl.
  - rewrite E. apply String.eqb_neq in Hne. rewrite String.eqb_sym in Hne.
    now rewrite Hne.
  - destruct (String.eqb (ITask._id t) id'); [reflexivity | exact IH].
Qed.

Lemma deleteTaskById_ids (id x : ObjectId) (ts : list ITask.t) :
  In x (map ITask._id (deleteTaskById id ts)) -> In x (map ITask._id ts).
Proof.
  induction ts as [|t ts IH]; simpl; [auto|].
  destruct (String.eqb (ITask._id t) id); simpl; [auto|].
  intros [H | H]; auto.
Qed.

Lemma deleteTaskById_unique (id : ObjectId) (ts : list ITask.t) :
  NoDup (map ITask._id ts) -> NoDup (map ITask._id (deleteTaskById id ts)).
Proof.
  induction ts as [|t ts IH]; simpl; intros Hnd; [constructor|].
  apply NoDup_cons_iff in Hnd as [Hfresh Hrest].
  destruct (String.eqb (ITask._id t) id); simpl; [exact Hrest|].
  apply NoDup_cons_iff. split; [|auto].
  contradict Hfresh. now apply deleteTaskById_ids in Hfresh.
Qed.

(** X9. When [taskController.deleteTask] is asked by an admin or by the
    creator for a stored task, it answers 200; 'taskDeleted' goes to every
    assignee, then to the creator, then, with an admin as requester, to the
    requester; the other tasks and the users stay. *)
Theorem Controller_delete_notifies
        (R : IUser.t) (T : ITask.t) (w : World) :
  ObjectId_isValid (ITask._id T) = true ->
  findTaskById (ITask._id T) (tasks w) = Some T ->
  isAdmin R = true \/ ITask.assignedBy T = IUser._id R ->
  let answer := Controller.deleteTask (Some R) (ITask._id T) w in
  let p := PDeleted (ITask._id T) (Some "Task has been deleted") in
  code (fst answer) = 200
  /\ emitted (snd answer)
     = emitted w
       ++ map (fun i => mkEmit i "taskDeleted" p) (ITask.assignedTo T)
       ++ [mkEmit (ITask.assignedBy T) "taskDeleted" p]
       ++ (if isAdmin R then [mkEmit (IUser._id R) "taskDeleted" p] else [])
  /\ (forall id, id <> ITask._id T ->
                 findTaskById id (tasks (snd answer)) = findTaskById id (tasks w))
  /\ users (snd answer) = users w.
Proof.
  intros Hvalid Hfound Hmay. cbv zeta.
  rewrite (Controller_deleteTask_found R _ w T Hvalid Hfound).
  assert (Hgate : negb (isAdmin R)
                  && negb (String.eqb (ITask.assignedBy T) (IUser._id R)) = false).
  { destruct Hmay as [-> | ->]; [reflexivity|].
    rewrite String.eqb_refl. now rewrite andb_false_r. }
  rewrite Hgate. cbn [fst snd code emitted tasks users].
  repeat split. intros id Hne. now apply deleteTaskById_other.
Qed.

Lemma Controller_delete_notifies_witness :
  deliveries (emitted (snd (Controller.deleteTask (Some frank) (hexId "1") office)))
  = [(hexId "b", "taskDeleted"); (hexId "c", "taskDeleted");
     (hexId "a", "taskDeleted"); (hexId "f", "taskDeleted")]
  /\ findTaskById (hexId "2")
                  (tasks (snd (Controller.deleteTask (Some frank) (hexId "1") office)))
     = Some docs.
Proof.
  destruct (Controller_delete_notifies frank ship office eq_refl eq_refl
                                       (or_introl eq_refl))
    as [_ [He [Hother _]]].
  split.
  - change (hexId "1") with (ITask._id ship). rewrite He. reflexivity.
  - exact (Hother (hexId "2") ltac:(discriminate)).
Defined.

Lemma isCanonical_isValid (id : string) :
  isCanonical id = true -> ObjectId_isValid id = true.
Proof.
  unfold isCanonical, ObjectId_isValid. rewrite andb_true_iff.
  intros [Hlen Hhex]. rewrite Hlen. cbn [andb].
  apply orb_true_iff. left. rewrite forallb_forall in *.
  intros c Hc. specialize (Hhex c Hc). unfold isLowerHex, isHex in *.
  apply orb_true_iff in Hhex as [H | H]; rewrite H;
    [reflexivity | now rewrite orb_true_r].
Qed.

(** X10. An id of 24 digits in the spelling of the store, lower-case
    letters, that is the id of no stored task is answered 404 by both
    delete handlers, whoever asks, and nothing is deleted or sent. *)
Theorem delete_unknown_task (U : IUser.t) (id : string) (w : World) :
  isCanonical id = true ->
  findTaskById id (tasks w) = None ->
  Routes.deleteTask (Some U) id w
  = (res 404 (JMessage None "Task not found"), w)
  /\ Controller.deleteTask (Some U) id w
     = (res 404 (Controller.failure "Task not found"), w).
Proof.
  intros Hcanon Hnone. apply isCanonical_isValid in Hcanon as Hvalid. split.
  - rewrite Routes_deleteTask_run. now rewrite Hvalid, Hnone.
  - unfold Controller.deleteTask. run_handler. now rewrite Hvalid, Hnone.
Qed.

Lemma delete_unknown_task_witness :
  Routes.deleteTask (Some alice) (hexId "7") office
  = (res 404 (JMessage None "Task not found"), office)
  /\ Controller.deleteTask (Some alice) (hexId "7") office
     = (res 404 (Controller.failure "Task not found"), office).
Proof.
  exact (delete_unknown_task alice (hexId "7") office eq_refl eq_refl).
Defined.

(** ** An invariant of the task collection *)

Lemma Routes_updateTask_ids
      (now : Date) (user : option IUser.t) (id : string) (body : TaskBody.t)
      (w : World) :
  map ITask._id (tasks (snd (Routes.updateTask now user id body w)))
  = map ITask._id (tasks w).
Proof.
  destruct (Nat.eq_dec (code (fst (Routes.updateTask now user id body w))) 200)
    as [Hok|Hko]; [|now rewrite Routes_updateTask_failure].
  destruct (ObjectId_isValid id) eqn:Hvalid.
  - destruct user as [U|].
    + destruct (findTaskById id (tasks w)) as [T|] eqn:Hfound.
      * rewrite (Routes_updateTask_found now U _ body w T Hvalid Hfound).
        destruct (negb (Routes.canWrite U T body)); [reflexivity|].
        destruct (negb (resolves findUsersIn body (users w))); [reflexivity|].
        cbv zeta. destruct (negb (validTask _)); [reflexivity|].
        cbn [snd tasks]. apply replaceTask_ids.
      * exfalso. revert Hok. unfold Routes.updateTask. run_handler.
        rewrite (isValid_not_placeholder _ Hvalid), Hvalid. cbn.
        rewrite Hfound. cbn. discriminate.
    + exfalso. revert Hok. unfold Routes.updateTask. run_handler.
      rewrite (isValid_not_placeholder _ Hvalid), Hvalid. cbn. discriminate.
  - exfalso. revert Hok. unfold Routes.updateTask. run_handler.
    rewrite Hvalid. destruct (_ || _); cbn; discriminate.
Qed.

Lemma Controller_updateTask_ids
      (now : Date) (user : option IUser.t) (id : string) (body : TaskBody.t)
      (w : World) :
  map ITask._id (tasks (snd (Controller.updateTask now user id body w)))
  = map ITask._id (tasks w).
Proof.
  now rewrite (proj2 (Controller_updateTask_failure now user id body w)).
Qed.

Lemma Controller_deleteTask_tasks (U : IUser.t) (id : string) (w : World) :
  tasks (snd (Controller.deleteTask (Some U) id w)) = tasks w
  \/ tasks (snd (Controller.deleteTask (Some U) id w))
     = deleteTaskById id (tasks w).
Proof.
  destruct (ObjectId_isValid id) eqn:Hvalid.
  - destruct (findTaskById id (tasks w)) as [T|] eqn:Hfound.
    + rewrite (Controller_deleteTask_found U _ w T Hvalid Hfound).
      destruct (_ && _); [now left | now right].
    + left. unfold Controller.deleteTask. run_handler.
      now rewrite Hvalid, Hfound.
  - left. unfold Controller.deleteTask. run_handler. now rewrite Hvalid.
Qed.

(** X11. The ids of the stored tasks stay pairwise distinct: an update, by
    either handler, leaves the list of ids as it is; a delete removes at
    most the id asked for; a create adds the new id, which is distinct
    from the others when it is fresh. *)
Theorem task_ids_stay_distinct
        (newId : ObjectId) (now : Date) (U : IUser.t) (id : string)
        (body : TaskBody.t) (w : World) :
  uniqueTaskIds w ->
  ~ In newId (map ITask._id (tasks w)) ->
  uniqueTaskIds (snd (Routes.updateTask now (Some U) id body w))
  /\ uniqueTaskIds (snd (Controller.updateTask now (Some U) id body w))
  /\ uniqueTaskIds (snd (Routes.deleteTask (Some U) id w))
  /\ uniqueTaskIds (snd (Controller.deleteTask (Some U) id w))
  /\ uniqueTaskIds (snd (Routes.createTask newId now (Some U) body w))
  /\ uniqueTaskIds (snd (Controller.createTask newId now (Some U) body w)).
Proof.
  unfold uniqueTaskIds. intros Hnd Hfresh.
  assert (Hnew : forall d, ITask._id d = newId ->
                           NoDup (map ITask._id (tasks w ++ [d]))).
  { intros d Hd. rewrite map_app. cbn [map]. rewrite Hd.
    revert Hnd Hfresh. generalize (map ITask._id (tasks w)).
    induction l as [|x l IH]; cbn; intros Hl Hx.
    - repeat constructor. auto.
    - apply NoDup_cons_iff in Hl as [Hxl Hl]. apply NoDup_cons_iff. split.
      + rewrite in_app_iff. cbn. intuition.
      + apply IH; auto. }
  repeat split.
  - now rewrite Routes_updateTask_ids.
  - now rewrite Controller_updateTask_ids.
  - rewrite Routes_deleteTask_run.
    destruct (ObjectId_isValid id); [|exact Hnd].
    destruct (findTaskById id (tasks w)); [|exact Hnd].
    cbn [snd tasks]. now apply deleteTaskById_unique.
  - destruct (Controller_deleteTask_tasks U id w) as [-> | ->];
      [exact Hnd | now apply deleteTaskById_unique].
  - rewrite Routes_createTask_run. cbv zeta.
    destruct (Nat.eqb _ 0); [exact Hnd|].
    destruct (negb (Nat.eqb _ _)); [exact Hnd|].
    destruct (negb (validTask _)); [exact Hnd|].
    cbn [snd tasks]. now apply Hnew.
  - rewrite Controller_createTask_run. cbv zeta.
    destruct (_ || _); [exact Hnd|].
    destruct (Nat.eqb _ 0); [exact Hnd|].
    destruct (negb (Nat.eqb _ _)); [exact Hnd|].
    destruct (negb (validTask _)); [exact Hnd|].
    cbn [snd tasks]. now apply Hnew.
Qed.

Lemma office_uniqueTaskIds : uniqueTaskIds office.
Proof.
  unfold uniqueTaskIds. cbn.
  repeat (constructor;
          [cbn; intros H; repeat (destruct H as [H | H]; [discriminate H|]);
           exact H |]).
  constructor.
Qed.

Lemma task_ids_stay_distinct_witness :
  uniqueTaskIds
    (snd (Routes.createTask (hexId "3") 300%Z (Some alice)
            (TaskBody.mk (Some "Ship") (Some "v1") None None (Some [hexId "b"])
                         None 0)
            office))
  /\ uniqueTaskIds (snd (Controller.deleteTask (Some alice) (hexId "1") office)).
Proof.
  assert (Hfresh : ~ In (hexId "3") (map ITask._id (tasks office))).
  { cbn. intros H. repeat (destruct H as [H | H]; [discriminate H|]). exact H. }
  destruct (task_ids_stay_distinct
              (hexId "3") 300%Z alice (hexId "1")
              (TaskBody.mk (Some "Ship") (Some "v1") None None (Some [hexId "b"])
                           None 0)
              office office_uniqueTaskIds Hfresh)
    as [_ [_ [_ [Hd [Hc _]]]]].
  exact (conj Hc Hd).
Defined.

(** ** Statistics *)

Lemma countOf_bump (s s' : string) (groups : list (string * nat)) :
  Stats.countOf s (Stats.bump s' groups)
  = if String.eqb s' s
    then Some (S (orElse (Stats.countOf s groups) 0))
    else Stats.countOf s groups.
Proof.
  induction groups as [|[k n] groups IH]; simpl.
  - now destruct (String.eqb s' s).
  - destruct (String.eqb_spec k s') as [->|Hk]; simpl.
    + now destruct (String.eqb s' s).
    + destruct (String.eqb_spec k s) as [->|Hs].
      * apply String.eqb_neq in Hk. rewrite String.eqb_sym in Hk.
        now rewrite Hk.
      * exact IH.
Qed.

Lemma countOf_group (s : string) (ts : list ITask.t) :
  Stats.countOf s (Stats.group ts)
  = match inStatus s ts with
    | 0 => None
    | S n => Some (S n)
    end.
Proof.
  unfold inStatus. induction ts as [|t ts IH]; simpl; [reflexivity|].
  rewrite countOf_bump, IH.
  destruct (String.eqb (ITask.status t) s); simpl; [|reflexivity].
  now destruct (length _).
Qed.

Lemma sumCounts_bump (s : string) (groups : list (string * nat)) :
  sumCounts (Stats.bump s groups) = S (sumCounts groups).
Proof.
  unfold sumCounts.
  induction groups as [|[k n] groups IH]; simpl; [reflexivity|].
  destruct (String.eqb k s); simpl; [reflexivity|]. rewrite IH. lia.
Qed.

Lemma sumCounts_group (ts : list ITask.t) :
  sumCounts (Stats.group ts) = length ts.
Proof.
  induction ts as [|t ts IH]; simpl; [reflexivity|].
  now rewrite sumCounts_bump, IH.
Qed.

Lemma overdue_not_done (now : Date) (ts : list ITask.t) :
  length (filter (Stats.isOverdue now) ts) + inStatus "done" ts <= length ts.
Proof.
  unfold inStatus, Stats.isOverdue.
  induction ts as [|t ts IH]; simpl; [lia|].
  destruct (String.eqb (ITask.status t) "done"); simpl; [lia|].
  destruct (ITask.dueDate t) as [d|]; [destruct (d <? now)%Z|]; simpl; lia.
Qed.

(** X12. [taskController.getTaskStats] counts within the scope of
    [taskController.getTasks]: its total is the count the listing reports
    to the same user; the counts by status add up to the total, give for
    each status the number of tasks in scope that have it and have no key
    for a status without tasks; and the overdue tasks, none of which is
    done, number at most the total less the done ones. *)
Theorem stats_agree_with_listing (now : Date) (U : IUser.t) (w : World) :
  exists (st : Stats.t) (scope : list ITask.t) (listed : list Populated.t),
    Stats.getTaskStats now (Some U) w = (200, Stats.Success st)
    /\ fst (Controller.getTasks (Some U) w)
       = res 200 (JTasks (Some true) listed (Some (Stats.total st)))
    /\ (forall t, In t scope
                  <-> In t (tasks w)
                      /\ (isAdmin U = true
                          \/ In (IUser._id U) (ITask.assignedTo t)
                          \/ IUser._id U = ITask.assignedBy t))
    /\ Stats.total st = length scope
    /\ sumCounts (Stats.byStatus st) = Stats.total st
    /\ (forall s, Stats.countOf s (Stats.byStatus st)
                  = match inStatus s scope with
                    | 0 => None
                    | S n => Some (S n)
                    end)
    /\ Stats.overdue st + inStatus "done" scope <= Stats.total st.
Proof.
  exists (Stats.mk (length (filter (Stats.matches U) (tasks w)))
                   (length (filter (Stats.isOverdue now)
                                   (filter (Stats.matches U) (tasks w))))
                   (Stats.group (filter (Stats.matches U) (tasks w)))).
  exists (filter (Stats.matches U) (tasks w)).
  exists (map (populate (users w))
              (sortByCreatedAtDesc (filter (Stats.matches U) (tasks w)))).
  split; [reflexivity|]. split.
  { assert (Hscope : filter (Stats.matches U) (tasks w)
                     = if isAdmin U then tasks w
                       else filter (Controller.visibleTo U) (tasks w)).
    { unfold Stats.matches. destruct (isAdmin U); cbn [negb]; [|reflexivity].
      induction (tasks w) as [|t ts IH]; simpl; congruence. }
    rewrite Hscope. unfold Controller.getTasks. run_handler. cbn [Stats.total].
    destruct (isAdmin U); cbn [fst];
      now rewrite (Permutation_length (sortByCreatedAtDesc_perm _)). }
  cbn [Stats.total Stats.overdue Stats.byStatus].
  split.
  { intros t. rewrite filter_In. unfold Stats.matches.
    destruct (isAdmin U); cbn [negb].
    - intuition.
    - rewrite Controller_visibleTo. intuition discriminate. }
  split; [reflexivity|]. split; [apply sumCounts_group|].
  split; [intros s; apply countOf_group | apply overdue_not_done].
Qed.

(** ** Register, login and [protect] *)

Lemma Auth_register_run
      (expiresIn : string) (newId : ObjectId) (body : Auth.RegisterBody)
      (w : World) :
  Auth.register expiresIn newId body w
  = if isSome (findUserByEmail (Auth.email body) (users w)) then
      (res 400 (JMessage None "User already exists"), w)
    else
      let role := orElse (Auth.role body) "user" in
      let u := IUser.mk newId (Auth.name body) (Auth.email body)
                        (Auth.password body) role true in
      if negb (validUser u) then (res 500 (JMessage None "Server error"), w)
      else
        (res 201 (JAuth (jwt_sign newId role JWT_SECRET expiresIn)
                        (UserView.mk newId (Auth.name body) (Auth.email body)
                                     role)),
         set_users (users w ++ [u]) w).
Proof.
  unfold Auth.register. run_handler.
  destruct (findUserByEmail (Auth.email body) (users w)) eqn:Hdup;
    cbn [isSome]; [reflexivity|].
  cbv zeta. destruct (validUser _); cbn [negb]; [|reflexivity].
  cbn [IUser.email]. now rewrite Hdup.
Qed.

Lemma findUserByEmail_none (e : string) (us : list IUser.t) :
  findUserByEmail e us = None -> ~ In e (map IUser.email us).
Proof.
  unfold findUserByEmail. intros Hnone Hin.
  apply in_map_iff in Hin as [u [<- Hu]].
  pose proof (find_none _ _ Hnone u Hu) as H. cbn in H.
  now rewrite String.eqb_refl in H.
Qed.

Lemma findUserByEmail_last (us : list IUser.t) (u : IUser.t) :
  isSome (findUserByEmail (IUser.email u) (us ++ [u])) = true.
Proof.
  unfold findUserByEmail. induction us as [|v us IH]; simpl.
  - now rewrite String.eqb_refl.
  - now destruct (String.eqb (IUser.email v) (IUser.email u)).
Qed.

Lemma distinct_with_last (A : Type) (x : A) (l : list A) :
  NoDup l -> ~ In x l -> NoDup (l ++ [x]).
Proof.
  induction l as [|y l IH]; cbn; intros Hl Hx.
  - repeat constructor. auto.
  - apply NoDup_cons_iff in Hl as [Hy Hl]. apply NoDup_cons_iff. split.
    + rewrite in_app_iff. cbn. intuition.
    + apply IH; auto.
Qed.

(** X13. The register route keeps the emails of the stored users pairwise
    distinct, whatever it is sent; and once it has answered 201, a further
    request with the same email, whatever else it carries, is answered 400
    and stores nothing. *)
Theorem register_keeps_emails_distinct
        (expiresIn expiresIn' : string) (newId newId' : ObjectId)
        (body body' : Auth.RegisterBody) (w : World) :
  uniqueEmails w ->
  let w' := snd (Auth.register expiresIn newId body w) in
  uniqueEmails w'
  /\ (code (fst (Auth.register expiresIn newId body w)) = 201 ->
      Auth.email body' = Auth.email body ->
      Auth.register expiresIn' newId' body' w'
      = (res 400 (JMessage None "User already exists"), w')).
Proof.
  unfold uniqueEmails. intros Hnd. cbv zeta.
  rewrite Auth_register_run.
  destruct (findUserByEmail (Auth.email body) (users w)) eqn:Hdup;
    cbn [isSome].
  - split; [exact Hnd | discriminate].
  - cbv zeta. destruct (validUser _); cbn [negb].
    + cbn [snd fst code users set_users]. split.
      * rewrite map_app. cbn [map IUser.email].
        apply distinct_with_last; [exact Hnd|].
        now apply findUserByEmail_none.
      * intros _ Hsame. rewrite Auth_register_run. cbn [users set_users].
        rewrite Hsame.
        pose proof (findUserByEmail_last (users w)
                      (IUser.mk newId (Auth.name body) (Auth.email body)
                                (Auth.password body)
                                (orElse (Auth.role body) "user") true)) as Hlast.
        cbn [IUser.email] in Hlast. now rewrite Hlast.
    + split; [exact Hnd | discriminate].
Qed.

Lemma register_keeps_emails_distinct_witness :
  let first := Auth.server_register (hexId "a")
                 (Auth.mkBody "Eve" "eve@x.io" "pw" None) noWorld in
  Auth.router_register (hexId "b") (Auth.mkBody "Mallory" "eve@x.io" "x"
                                                (Some "admin"))
                       (snd first)
  = (res 400 (JMessage None "User already exists"), snd first).
Proof.
  intros first.
  exact (proj2 (register_keeps_emails_distinct
                  "7d" "5d" (hexId "a") (hexId "b")
                  (Auth.mkBody "Eve" "eve@x.io" "pw" None)
                  (Auth.mkBody "Mallory" "eve@x.io" "x" (Some "admin"))
                  noWorld (NoDup_nil _))
               eq_refl eq_refl).
Defined.

Lemma findUserById_last (us : list IUser.t) (u : IUser.t) :
  findUserById (IUser._id u) us = None ->
  findUserById (IUser._id u) (us ++ [u]) = Some u.
Proof.
  unfold findUserById. induction us as [|v us IH]; simpl.
  - now rewrite String.eqb_refl.
  - destruct (String.eqb (IUser._id v) (IUser._id u)); [discriminate | exact IH].
Qed.

(** X14. The token the register route returns with 201 is accepted by
    [protect] on the world the registration left, and the account it loads
    into [req.user] is the one just stored, with the role the registration
    gave it, provided the new id was not the id of a stored user. *)
Theorem registered_token_passes_protect
        (expiresIn : string) (newId : ObjectId) (body : Auth.RegisterBody)
        (w : World) (next : IUser.t -> Handler Response) :
  findUserById newId (users w) = None ->
  code (fst (Auth.register expiresIn newId body w)) = 201 ->
  let w' := snd (Auth.register expiresIn newId body w) in
  exists (token : Token.t) (view : UserView.t),
    fst (Auth.register expiresIn newId body w) = res 201 (JAuth token view)
    /\ protect (Some token) next w'
       = next (IUser.mk newId (Auth.name body) (Auth.email body)
                        (Auth.password body) (orElse (Auth.role body) "user")
                        true) w'.
Proof.
  intros Hfresh. cbv zeta. rewrite Auth_register_run.
  destruct (isSome _); [discriminate|].
  cbv zeta. destruct (validUser _); cbn [negb]; [|discriminate].
  intros _. cbn [fst snd]. eexists. eexists. split; [reflexivity|].
  unfold protect, jwt_sign. cbn [Token.secret Token.id].
  rewrite String.eqb_refl. unfold bind, gets. cbn [users set_users].
  set (u := IUser.mk newId _ _ _ _ true).
  change newId with (IUser._id u). rewrite findUserById_last; [reflexivity|].
  exact Hfresh.
Qed.

Lemma registered_token_passes_protect_witness :
  let body := Auth.mkBody "Eve" "eve@x.io" "pw" (Some "admin") in
  let w' := snd (Auth.server_register (hexId "9") body office) in
  protect (Some (jwt_sign (hexId "9") "admin" JWT_SECRET "7d"))
          (fun u => reply 200 (JMessage None (IUser.role u))) w'
  = (Reply (res 200 (JMessage None "admin")), w').
Proof.
  intros body w'.
  destruct (registered_token_passes_protect
              "7d" (hexId "9") body office
              (fun u => reply 200 (JMessage None (IUser.role u)))
              eq_refl eq_refl) as [token [view [Hr Hp]]].
  injection Hr as <- _. exact Hp.
Defined.

(** X15. [app.post('/api/auth/login')] never writes.  It answers an unknown
    email and a wrong password alike, 401 'Invalid credentials'.  When the
    password matches, the token it signs carries the id and the role of the
    stored account, active or not, and [protect] accepts it and loads that
    very account. *)
Theorem login_signs_stored_role
        (bcrypt_compare : string -> string -> bool)
        (body : Login.LoginBody) (w : World)
        (next : IUser.t -> Handler Response) :
  uniqueIds w ->
  snd (Login.login bcrypt_compare body w) = w
  /\ (code (fst (Login.login bcrypt_compare body w)) <> 200 ->
      fst (Login.login bcrypt_compare body w)
      = res 401 (JMessage None "Invalid credentials"))
  /\ (forall u : IUser.t,
         findUserByEmail (Login.email body) (users w) = Some u ->
         bcrypt_compare (Login.password body) (IUser.password u) = true ->
         let token := jwt_sign (IUser._id u) (IUser.role u) JWT_SECRET "5d" in
         fst (Login.login bcrypt_compare body w)
         = res 200 (JAuth token
                          (UserView.mk (IUser._id u) (IUser.name u)
                                       (IUser.email u) (IUser.role u)))
         /\ protect (Some token) next w = next u w).
Proof.
  intros Hunique. unfold Login.login. run_handler.
  destruct (findUserByEmail (Login.email body) (users w)) as [u|] eqn:Hu.
  - destruct (bcrypt_compare (Login.password body) (IUser.password u)) eqn:Hp;
      cbn [negb fst snd code].
    + split; [reflexivity|]. split; [congruence|].
      intros u' Hu' _. injection Hu' as <-. split; [reflexivity|].
      unfold protect, jwt_sign. cbn [Token.secret Token.id].
      rewrite String.eqb_refl. unfold bind, gets.
      rewrite (findUserById_unique (users w) u Hunique); [reflexivity|].
      unfold findUserByEmail in Hu. now apply find_some in Hu.
    + split; [reflexivity|]. split; [reflexivity|].
      intros u' Hu' Hp'. injection Hu' as <-. congruence.
  - cbn [fst snd]. split; [reflexivity|]. split; [reflexivity|]. discriminate.
Qed.

Lemma login_signs_stored_role_witness :
  fst (Login.login String.eqb (Login.mkBody "dave@x.io" "pw") office)
  = res 200 (JAuth (jwt_sign (hexId "d") "user" JWT_SECRET "5d")
                   (UserView.mk (hexId "d") "Dave" "dave@x.io" "user"))
  /\ fst (Login.login String.eqb (Login.mkBody "dave@x.io" "no") office)
     = fst (Login.login String.eqb (Login.mkBody "nobody@x.io" "pw") office).
Proof.
  destruct (login_signs_stored_role
              String.eqb (Login.mkBody "dave@x.io" "pw") office
              (fun _ => ret (res 200 (JMessage None "")))
              office_uniqueIds) as [_ [_ H]].
  split.
  - exact (proj1 (H dave eq_refl eq_refl)).
  - rewrite (proj1 (proj2 (login_signs_stored_role
                             String.eqb (Login.mkBody "dave@x.io" "no") office
                             (fun _ => ret (res 200 (JMessage None "")))
                             office_uniqueIds))) by (vm_compute; discriminate).
    reflexivity.
Defined.

(** ** The socket server *)

Lemma Socket_get_put_same (key : string) (v : Socket.Value) (data : Socket.Data) :
  Socket.get key (Socket.put key v data) = Some v.
Proof.
  induction data as [|[k v'] data IH]; simpl.
  - now rewrite String.eqb_refl.
  - destruct (String.eqb k key) eqn:E; simpl; now rewrite E.
Qed.

Lemma Socket_get_put_other
      (key key' : string) (v : Socket.Value) (data : Socket.Data) :
  key' <> key ->
  Socket.get key' (Socket.put key v data) = Socket.get key' data.
Proof.
  intros Hne. induction data as [|[k v'] data IH]; simpl.
  - apply String.eqb_neq in Hne. rewrite String.eqb_sym in Hne. now rewrite Hne.
  - destruct (String.eqb_spec k key) as [->|Hk]; simpl.
    + apply String.eqb_neq in Hne. rewrite String.eqb_sym in Hne.
      now rewrite Hne.
    + now rewrite IH.
Qed.

(** X16. A connection the handshake admits is bound to the id, name and
    role of the stored account the token names, not to the role written in
    the token.  What it sends as 'user:request' reaches the room 'admin'
    only if that stored role is 'user', and then carries the stored id and
    name under [userId] and [userName] whatever the client put there, with
    every other key of the data as sent; what it sends as 'admin:broadcast'
    is dropped unless the stored role is 'admin'. *)
Theorem socket_identity_comes_from_store
        (token : Token.t) (us : list IUser.t) (u : IUser.t) (data : Socket.Data) :
  Token.secret token = JWT_SECRET ->
  findUserById (Token.id token) us = Some u ->
  exists bound : Socket.SocketUser,
    Socket.handshake (Some token) us = inr bound
    /\ Socket.id bound = IUser._id u
    /\ Socket.role bound = IUser.role u
    /\ (IUser.role u <> "admin" -> Socket.on_admin_broadcast bound data = [])
    /\ (IUser.role u <> "user" -> Socket.on_user_request bound data = [])
    /\ (IUser.role u = "user" ->
        exists payload : Socket.Data,
          Socket.on_user_request bound data
          = [Socket.mkSent "admin" "admin:request" payload]
          /\ Socket.get "userId" payload = Some (Socket.VString (IUser._id u))
          /\ Socket.get "userName" payload
             = Some (Socket.VString (IUser.name u))
          /\ forall key, key <> "userId" -> key <> "userName" ->
                         Socket.get key payload = Socket.get key data).
Proof.
  intros Hsecret Hu.
  exists (Socket.mkUser (IUser._id u) (IUser.name u) (IUser.role u)).
  split.
  { unfold Socket.handshake. now rewrite Hsecret, String.eqb_refl, Hu. }
  split; [reflexivity|]. split; [reflexivity|].
  unfold Socket.on_admin_broadcast, Socket.on_user_request.
  cbn [Socket.role Socket.id Socket.name].
  split; [intros H; apply String.eqb_neq in H; now rewrite H|].
  split; [intros H; apply String.eqb_neq in H; now rewrite H|].
  intros ->. cbn [String.eqb Ascii.eqb Bool.eqb andb].
  eexists. split; [reflexivity|]. split.
  - rewrite Socket_get_put_other by discriminate. apply Socket_get_put_same.
  - split; [apply Socket_get_put_same|].
    intros key H1 H2. now rewrite !Socket_get_put_other.
Qed.

Lemma socket_identity_comes_from_store_witness :
  let forged := jwt_sign (hexId "b") "admin" JWT_SECRET "7d" in
  let data := [("userId", Socket.VString (hexId "a")); ("note", Socket.VNumber 7)] in
  exists bound : Socket.SocketUser,
    Socket.handshake (Some forged) (users office) = inr bound
    /\ Socket.role bound = "user"
    /\ Socket.on_admin_broadcast bound data = [].
Proof.
  intros forged data.
  destruct (socket_identity_comes_from_store
              forged (users office) bob data eq_refl eq_refl)
    as [bound [H1 [_ [H3 [H4 _]]]]].
  exists bound. split; [exact H1|]. split; [exact H3|].
  apply H4. discriminate.
Defined.

(** ** The handler of [router.delete('/:id')] *)

(** X17. Past its middleware, [router.delete('/:id')] deletes a stored task
    for whoever asks: it answers 200, sends 'taskDeleted' to every assignee
    and then to the requester, and to the creator only as one of these;
    with distinct task ids the task is gone, and the other tasks stay. *)
Theorem Routes_delete_notifies (R : IUser.t) (T : ITask.t) (w : World) :
  uniqueTaskIds w ->
  ObjectId_isValid (ITask._id T) = true ->
  findTaskById (ITask._id T) (tasks w) = Some T ->
  let answer := Routes.deleteTask (Some R) (ITask._id T) w in
  let p := PDeleted (ITask._id T) None in
  fst answer = res 200 (JMessage None "Task deleted successfully")
  /\ emitted (snd answer)
     = emitted w
       ++ map (fun i => mkEmit i "taskDeleted" p) (ITask.assignedTo T)
       ++ [mkEmit (IUser._id R) "taskDeleted" p]
  /\ findTaskById (ITask._id T) (tasks (snd answer)) = None
  /\ (forall id, id <> ITask._id T ->
                 findTaskById id (tasks (snd answer)) = findTaskById id (tasks w)).
Proof.
  intros Hunique Hvalid Hfound. cbv zeta.
  rewrite Routes_deleteTask_run, Hvalid, Hfound.
  cbn [fst snd emitted tasks].
  split; [reflexivity|]. split; [reflexivity|].
  split; [now apply deleteTaskById_gone|].
  intros id Hne. now apply deleteTaskById_other.
Qed.

Lemma Routes_delete_notifies_witness :
  deliveries (emitted (snd (Routes.deleteTask (Some frank) (hexId "1") office)))
  = [(hexId "b", "taskDeleted"); (hexId "c", "taskDeleted");
     (hexId "f", "taskDeleted")]
  /\ findTaskById (hexId "1")
                  (tasks (snd (Routes.deleteTask (Some frank) (hexId "1") office)))
     = None.
Proof.
  destruct (Routes_delete_notifies frank ship office office_uniqueTaskIds
                                   eq_refl eq_refl) as [_ [He [Hgone _]]].
  split.
  - change (hexId "1") with (ITask._id ship). rewrite He. reflexivity.
  - exact Hgone.
Defined.

(** ** Instances of the lemmas on the controller and the router *)

Lemma Routes_getTasks_scope_witness :
  exists ts : list ITask.t,
    Routes.getTasks (Some bob) office
    = (res 200 (JTasks None (map (populate (users office)) ts) None), office)
    /\ Sorted newerFirst ts
    /\ (In docs ts /\ In ship ts).
Proof.
  destruct (Routes_getTasks_scope bob office eq_refl) as [ts [H1 [H2 H3]]].
  exists ts. split; [exact H1|]. split; [exact H2|].
  split; apply H3; cbn; auto.
Defined.

Lemma Controller_create_refuses_inactive_witness :
  let body :=
    TaskBody.mk (Some "Ship") (Some "v1") None None
                (Some [hexId "b"; hexId "d"]) None 0 in
  code (fst (Controller.createTask (hexId "3") 300%Z (Some alice) body office))
  = 400
  /\ snd (Controller.createTask (hexId "3") 300%Z (Some alice) body office)
     = office.
Proof.
  intros body.
  apply (Controller_create_refuses_inactive
           (hexId "3") 300%Z alice body office [hexId "b"; hexId "d"]
           (hexId "d") dave office_uniqueIds eq_refl);
    [cbn; auto | reflexivity | reflexivity].
Defined.

Lemma Controller_delete_by_creator_only_witness :
  fst (Controller.deleteTask (Some erin) (hexId "2") office)
  = res 200 (JMessage (Some true) "Task deleted successfully")
  /\ Controller.deleteTask (Some bob) (hexId "2") office
     = (res 403 (Controller.failure "Access denied"), office).
Proof.
  destruct (Controller_delete_by_creator_only
              erin bob docs office office_uniqueTaskIds eq_refl eq_refl
              ltac:(discriminate) eq_refl ltac:(discriminate)
              ltac:(discriminate)) as [[H1 _] H2].
  exact (conj H1 H2).
Defined.

(** X25. For a stored task and the account [protect] loaded, both [get]
    handlers answer 200 with the populated task to an admin and to an
    assignee, and to nobody else: the creator's id is compared with the
    text of the populated creator document, which no id equals, so a
    creator who is neither gets 403 like any other user; and when the
    creator's account is gone the comparison throws and the answer is 500.
    The world is left as it was. *)
Theorem getTask_reads_admin_or_assignee (U : IUser.t) (T : ITask.t) (w : World) :
  findUserById (IUser._id U) (users w) = Some U ->
  ObjectId_isValid (IUser._id U) = true ->
  ObjectId_isValid (ITask._id T) = true ->
  findTaskById (ITask._id T) (tasks w) = Some T ->
  let readable := isAdmin U || mem (IUser._id U) (ITask.assignedTo T) in
  let creatorStored := isSome (findUserById (ITask.assignedBy T) (users w)) in
  Routes.getTask (Some U) (ITask._id T) w
  = (if readable then res 200 (JTask None (populate (users w) T) None)
     else if creatorStored then res 403 (JMessage None "Access denied")
     else res 500 serverError, w)
  /\ Controller.getTask (Some U) (ITask._id T) w
     = (if readable
        then res 200 (JTask (Some true) (populate (users w) T) None)
        else if creatorStored then res 403 (Controller.failure "Access denied")
        else res 500 Controller.serverError, w).
Proof.
  intros HU HidU Hvalid Hfound. cbv zeta.
  rewrite (Routes_getTask_found U T w HU Hvalid Hfound).
  rewrite (Controller_getTask_found U T w HU Hvalid Hfound).
  unfold populateOne.
  destruct (isAdmin U || mem (IUser._id U) (ITask.assignedTo T));
    [split; reflexivity|].
  destruct (findUserById (ITask.assignedBy T) (users w)) as [c|];
    cbn [option_map isSome]; [|split; reflexivity].
  rewrite (documentString_no_id (refOf c) (IUser._id U) HidU).
  split; reflexivity.
Qed.

Lemma getTask_reads_admin_or_assignee_witness :
  Controller.getTask (Some erin) (hexId "2") office
  = (res 403 (Controller.failure "Access denied"), office)
  /\ Controller.getTask (Some bob) (hexId "2") office
     = (res 200 (JTask (Some true) (populate (users office) docs) None), office)
  /\ Routes.getTask (Some carol) (hexId "4") attic = (res 500 serverError, attic).
Proof.
  split; [|split].
  - exact (proj2 (getTask_reads_admin_or_assignee erin docs office
                    eq_refl eq_refl eq_refl eq_refl)).
  - exact (proj2 (getTask_reads_admin_or_assignee bob docs office
                    eq_refl eq_refl eq_refl eq_refl)).
  - exact (proj1 (getTask_reads_admin_or_assignee carol orphan attic
                    eq_refl eq_refl eq_refl eq_refl)).
Defined.


(** ** Changing the role or the status of an account *)

Lemma updateById_ids (id : ObjectId) (f : IUser.t -> IUser.t) (us : list IUser.t) :
  (forall u, IUser._id (f u) = IUser._id u) ->
  map IUser._id (Users.updateById id f us) = map IUser._id us.
Proof.
  intros Hf. induction us as [|u us IH]; simpl; [reflexivity|].
  destruct (String.eqb (IUser._id u) id); simpl; [now rewrite Hf|].
  now rewrite IH.
Qed.

Lemma updateById_found
      (id : ObjectId) (f : IUser.t -> IUser.t) (us : list IUser.t) (u : IUser.t) :
  (forall u, IUser._id (f u) = IUser._id u) ->
  findUserById id us = Some u ->
  findUserById id (Users.updateById id f us) = Some (f u).
Proof.
  intros Hf. unfold findUserById.
  induction us as [|v us IH]; simpl; [discriminate|].
  destruct (String.eqb (IUser._id v) id) eqn:E; simpl.
  - intros H. injection H as <-. now rewrite Hf, E.
  - now rewrite E.
Qed.

Lemma updateById_other
      (id id' : ObjectId) (f : IUser.t -> IUser.t) (us : list IUser.t) :
  (forall u, IUser._id (f u) = IUser._id u) ->
  id' <> id ->
  findUserById id' (Users.updateById id f us) = findUserById id' us.
Proof.
  intros Hf Hne. unfold findUserById.
  induction us as [|v us IH]; simpl; [reflexivity|].
  destruct (String.eqb_spec (IUser._id v) id) as [E|E]; simpl.
  - rewrite Hf, E. apply String.eqb_neq in Hne. rewrite String.eqb_sym in Hne.
    now rewrite Hne.
  - destruct (String.eqb (IUser._id v) id'); [reflexivity | exact IH].
Qed.

(** X18. [router.put('/:id/role')] refuses a role other than 'admin' and
    'user' with 400 and changes nothing.  With one of the two it stores the
    role on the account, leaves the other accounts, the list of ids, the
    tasks and the events as they were, and from then on [protect] loads the
    account with the new role for every token that names it, whatever role
    the token was signed with. *)
Theorem role_change_reaches_issued_tokens
        (id : string) (r : string) (u : IUser.t) (w : World) (token : Token.t)
        (next : IUser.t -> Handler Response) :
  ObjectId_isValid id = true ->
  findUserById id (users w) = Some u ->
  Token.secret token = JWT_SECRET ->
  Token.id token = id ->
  (mem r ["admin"; "user"] = false ->
   Users.updateRole id (Some r) w
   = ((400, Users.Failure ("Invalid role. Must be " ++ Users.quote ++ "admin"
                           ++ Users.quote ++ " or " ++ Users.quote ++ "user"
                           ++ Users.quote)), w))
  /\ (mem r ["admin"; "user"] = true ->
      let w' := snd (Users.updateRole id (Some r) w) in
      fst (Users.updateRole id (Some r) w)
      = (200, Users.Success (Users.view (Users.set_role r u)))
      /\ findUserById id (users w') = Some (Users.set_role r u)
      /\ (forall id', id' <> id ->
                      findUserById id' (users w') = findUserById id' (users w))
      /\ map IUser._id (users w') = map IUser._id (users w)
      /\ tasks w' = tasks w
      /\ emitted w' = emitted w
      /\ protect (Some token) next w' = next (Users.set_role r u) w').
Proof.
  intros Hvalid Hu Hsecret Hid.
  assert (Hkeep : forall v, IUser._id (Users.set_role r v) = IUser._id v)
    by reflexivity.
  split; intros Hr; unfold Users.updateRole; cbv zeta; rewrite Hr; cbn [negb];
    [reflexivity|].
  unfold Users.findByIdAndUpdate. rewrite Hvalid, Hu.
  cbn [fst snd users tasks emitted set_users].
  pose proof (updateById_found id _ _ u Hkeep Hu) as Hnew.
  repeat split; try assumption.
  - intros id' Hne. now apply updateById_other.
  - now apply updateById_ids.
  - unfold protect. rewrite Hsecret, String.eqb_refl, Hid.
    unfold bind, gets. cbn [users set_users]. now rewrite Hnew.
Qed.

Lemma role_change_reaches_issued_tokens_witness :
  let w' := snd (Users.updateRole (hexId "f") (Some "user") office) in
  protect (Some frankToken) (fun u => reply 200 (JMessage None (IUser.role u))) w'
  = (Reply (res 200 (JMessage None "user")), w').
Proof.
  intros w'.
  destruct (role_change_reaches_issued_tokens
              (hexId "f") "user" frank office frankToken
              (fun u => reply 200 (JMessage None (IUser.role u)))
              eq_refl eq_refl eq_refl eq_refl) as [_ H].
  destruct (H eq_refl) as [_ [_ [_ [_ [_ [_ Hp]]]]]].
  exact Hp.
Defined.

(** X19. Setting [isActive] to false through [router.put('/:id/status')]
    does not close the account's sessions: [protect] still admits a token
    that names it.  What the flag stops is assignment by
    [taskController.createTask], which answers 400 to a body that assigns
    to the account and writes nothing. *)
Theorem deactivation_keeps_tokens_valid
        (id : string) (u : IUser.t) (w : World) (token : Token.t)
        (next : IUser.t -> Handler Response)
        (newId : ObjectId) (now : Date) (R : IUser.t) (body : TaskBody.t)
        (ids : list ObjectId) :
  uniqueIds w ->
  ObjectId_isValid id = true ->
  findUserById id (users w) = Some u ->
  Token.secret token = JWT_SECRET ->
  Token.id token = id ->
  TaskBody.assignedTo body = Some ids ->
  In id ids ->
  let w' := snd (Users.updateStatus id false w) in
  fst (Users.updateStatus id false w)
  = (200, Users.Success (Users.view (Users.set_isActive false u)))
  /\ protect (Some token) next w' = next (Users.set_isActive false u) w'
  /\ code (fst (Controller.createTask newId now (Some R) body w')) = 400
  /\ snd (Controller.createTask newId now (Some R) body w') = w'.
Proof.
  intros Hunique Hvalid Hu Hsecret Hid Hids Hin.
  assert (Hkeep : forall v, IUser._id (Users.set_isActive false v) = IUser._id v)
    by reflexivity.
  unfold Users.updateStatus, Users.findByIdAndUpdate. cbv zeta.
  rewrite Hvalid, Hu. cbn [fst snd].
  set (w' := set_users (Users.updateById id (Users.set_isActive false) (users w)) w).
  pose proof (updateById_found id _ _ u Hkeep Hu) as Hnew.
  assert (Hunique' : uniqueIds w').
  { unfold uniqueIds, w'. cbn [users set_users].
    now rewrite (updateById_ids id _ _ Hkeep). }
  split; [reflexivity|]. split.
  - unfold protect. rewrite Hsecret, String.eqb_refl, Hid.
    unfold bind, gets. cbn [users w' set_users]. now rewrite Hnew.
  - rewrite Controller_createTask_run. cbv zeta. rewrite Hids. cbn [orElse].
    destruct (_ || _); [now split|].
    destruct (Nat.eqb (length ids) 0); [now split|].
    destruct (Nat.eqb (length (findActiveUsersIn ids (users w'))) (length ids))
             eqn:Hall; cbn [negb]; [|now split].
    exfalso. apply Nat.eqb_eq in Hall.
    destruct (findActiveUsersIn_all _ _ Hunique' Hall) as [_ Hres].
    destruct (Hres id Hin) as [v [Hv Hactive]].
    unfold w' in Hv. cbn [users set_users] in Hv. rewrite Hnew in Hv.
    injection Hv as <-. discriminate Hactive.
Qed.

Lemma deactivation_keeps_tokens_valid_witness :
  let w' := snd (Users.updateStatus (hexId "e") false office) in
  let body :=
    TaskBody.mk (Some "Ship") (Some "v1") None None (Some [hexId "e"]) None 0 in
  protect (Some erinToken)
          (fun u => reply 200 (JMessage None (IUser.name u))) w'
  = (Reply (res 200 (JMessage None "Erin")), w')
  /\ code (fst (Controller.createTask (hexId "3") 300%Z (Some alice) body w'))
     = 400.
Proof.
  intros w' body.
  destruct (deactivation_keeps_tokens_valid
              (hexId "e") erin office erinToken
              (fun u => reply 200 (JMessage None (IUser.name u)))
              (hexId "3") 300%Z alice body [hexId "e"]
              office_uniqueIds eq_refl eq_refl eq_refl eq_refl eq_refl
              (or_introl eq_refl)) as [_ [Hp [Hc _]]].
  exact (conj Hp Hc).
Defined.
